(** * matchzoo/engine/base_model.py: BaseModel and load_model

    A shallow embedding of the abstract base class of all matchzoo models and
    of [load_model].  Python objects that the class handles become values of
    an inductive type, the parameter dictionary becomes a finite map with
    string keys, and every method becomes a computation in a state and
    exception monad: a Python method mutates [self] (or the file system) in
    place and may raise, and what it wrote before raising stays written.

    The external libraries (keras, pickle) are interfaces: a type class for
    the backend model and section variables for the serializer. *)

From Stdlib Require Import ZArith String List.
From Stdlib.Strings Require Import Byte.
From stdpp Require Import base option gmap strings list fin_maps.

Set Warnings "-register-all,-clear-no-such-hyp".

Open Scope string_scope.
Open Scope Z_scope.

(** ** Python values held by a parameter table *)

(** Modelled from the spec: the task classes of [matchzoo.engine], the
    "task type" of the params, are defined outside this source file.  A task
    class is its name, whether it is the abstract base task, and what
    [list_available_losses] and [list_available_metrics] answer; losses and
    metrics are names, as keras' [compile] takes them. *)
Record task_class := TaskClass {
  tc_name : string;
  tc_abstract : bool;
  tc_losses : list string;
  tc_metrics : list string
}.

Inductive value :=
| VNone
| VBool (b : bool)
| VInt (z : Z)
| VStr (s : string)
| VTuple (items : list value)
| VList (items : list value)
| VClass (name : string)          (* a model class object, e.g. [self.__class__] *)
| VTask (t : task_class).         (* an instance of a task class *)

(** [v is None] *)
Definition is_None (v : value) : bool :=
  match v with VNone => true | _ => false end.

(** ** Exceptions and the state-and-exception monad *)

Inductive exn :=
| KeyError (key : string)
| TypeError
| AttributeError
| IndexError
| FileExistsError
| FileNotFoundError
| NotADirectoryError
| IsADirectoryError
| PicklingError
| UnpicklingError
| BackendError (msg : string).    (* whatever the framework raises inside *)

Inductive result (A : Type) :=
| Ok (a : A)
| Raise (e : exn).
Arguments Ok {A} a.
Arguments Raise {A} e.

(** A computation over a mutable state [S]: the state after the call and
    either the returned value or the exception that left the call. *)
Definition M (S A : Type) : Type := S -> S * result A.

Definition ret {S A} (a : A) : M S A := fun s => (s, Ok a).

Definition raise {S A} (e : exn) : M S A := fun s => (s, Raise e).

Definition bind {S A B} (m : M S A) (k : A -> M S B) : M S B :=
  fun s => match m s with
           | (s', Ok a) => k a s'
           | (s', Raise e) => (s', Raise e)
           end.

Definition lift_result {S A} (r : result A) : M S A := fun s => (s, r).

#[global] Instance M_ret {S} : MRet (M S) := fun A => @ret S A.
#[global] Instance M_bind {S} : MBind (M S) := fun A B k m => @bind S A B m k.

(** Run a computation on a part of the state. *)
Definition zoom {S T A} (get : S -> T) (set : T -> S -> S) (m : M T A) : M S A :=
  fun s => let '(t', r) := m (get s) in (set t' s, r).

(** Python's [if c: body], with no [else]. *)
Definition when {S} (c : bool) (body : M S unit) : M S unit :=
  if c then body else ret tt.

(** ** [engine.ModelParams] *)

Abbreviation ModelParams := (gmap string value).

(** Modelled from the spec: [engine.ModelParams], the "named, serializable
    key-value configuration" of the glossary, is defined outside this source
    file.  It is a dictionary.  Of its constructor the source shows that the
    seven standard entries are there, [guess_and_fill_missing_params]
    subscripts each of them, and that a fresh [NaiveModel] is not filled, in
    the doctest of [all_params_filled]; which entries come unset is not told.
    The table with all seven unset is taken here.  Only what is said below
    of a model built with no params rests on this choice: the concrete
    setting [Demo] and [guess_and_fill_missing_params_returns]. *)
Definition ModelParams_new : ModelParams :=
  <["name" := VNone]> (<["model_class" := VNone]> (<["input_shapes" := VNone]>
  (<["task" := VNone]> (<["metrics" := VNone]> (<["loss" := VNone]>
  (<["optimizer" := VNone]> ∅)))))).

(** [params[key]] *)
Definition getitem (key : string) : M ModelParams value :=
  fun p => match p !! key with
           | Some v => (p, Ok v)
           | None => (p, Raise (KeyError key))
           end.

(** [params[key] = v] *)
Definition setitem (key : string) (v : value) : M ModelParams unit :=
  fun p => (<[key := v]> p, Ok tt).

(** [bool(params)]: a dictionary is true when it is not empty; [None] is
    false. *)
Definition truthy (params : option ModelParams) : bool :=
  match params with
  | None => false
  | Some p => negb (bool_decide (p = ∅))
  end.

(** ** Task objects *)

(** [cls()] on a task class. *)
Definition new_task (t : task_class) : result value :=
  if tc_abstract t then Raise TypeError else Ok (VTask t).

(** [task.list_available_metrics()]; only task objects have the method. *)
Definition list_available_metrics (task : value) : result value :=
  match task with
  | VTask t => Ok (VList (map VStr (tc_metrics t)))
  | _ => Raise AttributeError
  end.

(** [task.list_available_losses()] *)
Definition list_available_losses (task : value) : result value :=
  match task with
  | VTask t => Ok (VList (map VStr (tc_losses t)))
  | _ => Raise AttributeError
  end.

(** [xs[i]] on a list or tuple object, for an index that is not negative. *)
Definition subscript (xs : value) (i : nat) : result value :=
  match xs with
  | VList items | VTuple items =>
      match items !! i with
      | Some v => Ok v
      | None => Raise IndexError
      end
  | _ => Raise TypeError
  end.

(** ** The parameter part of [guess_and_fill_missing_params] *)

Section GuessAndFill.

(** [engine.list_available_tasks()], defined outside this source file:
    a list of task classes; the source comments that index 0 is the
    abstract task class. *)
Variable list_available_tasks : list task_class.

(** [engine.list_available_tasks()[1]()] *)
Definition default_task : result value :=
  match list_available_tasks !! 1%nat with
  | Some t => new_task t
  | None => Raise IndexError
  end.

(** The body of the method, on [self._params]; [cls] is
    [self.__class__] and its name is [self.__class__.__name__]. *)
Definition fill_params (cls : string) : M ModelParams unit :=
  v ← getitem "name";
  when (is_None v) (setitem "name" (VStr cls));;
  v ← getitem "model_class";
  when (is_None v) (setitem "model_class" (VClass cls));;
  v ← getitem "task";
  when (is_None v)
    (t ← lift_result default_task; setitem "task" t);;
  v ← getitem "input_shapes";
  when (is_None v)
    (setitem "input_shapes" (VList [VTuple [VInt 30]; VTuple [VInt 30]]));;
  v ← getitem "metrics";
  when (is_None v)
    (task ← getitem "task";
     available_metrics ← lift_result (list_available_metrics task);
     setitem "metrics" available_metrics);;
  v ← getitem "loss";
  when (is_None v)
    (task ← getitem "task";
     available_losses ← lift_result (list_available_losses task);
     l ← lift_result (subscript available_losses 0);
     setitem "loss" l);;
  v ← getitem "optimizer";
  when (is_None v) (setitem "optimizer" (VStr "adam")).

End GuessAndFill.

(** ** Model classes *)

(** What a class derived from [BaseModel] decides for the code below: whether
    it is still abstract ([build] not implemented; [BaseModel] itself is),
    and what its own [get_default_params] returns when it overrides the
    class method, as [MyModel] does in the docstring. *)
Record class_def := ClassDef {
  cls_abstract : bool;
  cls_default_params : option ModelParams
}.

(** [BaseModel.get_default_params]: [return engine.ModelParams()] *)
Definition get_default_params : ModelParams := ModelParams_new.

(** ** The file system under [pathlib] and [open] *)

Abbreviation path := (list string).
Abbreviation bytes := (list byte).

Inductive node :=
| Dir
| File (data : bytes).

Abbreviation FS := (gmap (list string) node).

(** The empty path names the directory every relative path starts from; it
    always exists. *)
Definition fs_lookup (fs : FS) (p : path) : option node :=
  match p with
  | [] => Some Dir
  | _ => fs !! p
  end.

Definition parent (p : path) : path := removelast p.

(** [Path.joinpath] with a plain file name. *)
Definition joinpath (p : path) (name : string) : path := p ++ [name].

(** [Path.exists] *)
Definition path_exists (p : path) : M FS bool :=
  fun fs => (fs, Ok (bool_decide (is_Some (fs_lookup fs p)))).

(** The paths a path leads through: its proper prefixes, from the
    starting directory down to the directory above it. *)
Definition ancestors (p : path) : list path :=
  map (fun n => take n p) (seq 0 (length p)).

Definition is_file (fs : FS) (p : path) : bool :=
  match fs_lookup fs p with
  | Some (File _) => true
  | _ => false
  end.

(** What the operating system answers for a path that cannot be reached:
    [ENOTDIR] where a regular file stands on the way to it, [ENOENT]
    otherwise. *)
Definition absent_error (fs : FS) (p : path) : exn :=
  if existsb (is_file fs) (ancestors p) then NotADirectoryError
  else FileNotFoundError.

(** What a new entry at [p] needs of the directory above it. *)
Definition check_parent (p : path) : M FS unit :=
  fun fs => match fs_lookup fs (parent p) with
            | Some Dir => (fs, Ok tt)
            | Some (File _) => (fs, Raise NotADirectoryError)
            | None => (fs, Raise (absent_error fs p))
            end.

Definition put_node (p : path) (n : node) : M FS unit :=
  fun fs => (<[p := n]> fs, Ok tt).

(** [Path.mkdir()], with [parents=False] and [exist_ok=False]. *)
Definition mkdir (p : path) : M FS unit :=
  fun fs => match fs_lookup fs p with
            | Some _ => (fs, Raise FileExistsError)
            | None => (check_parent p;; put_node p Dir) fs
            end.

(** [open(p, mode='wb')] and writing [data] through the handle; opening
    alone leaves an empty file. *)
Definition write_file (p : path) (data : bytes) : M FS unit :=
  fun fs => match fs_lookup fs p with
            | Some Dir => (fs, Raise IsADirectoryError)
            | Some (File _) => put_node p (File data) fs
            | None => (check_parent p;; put_node p (File data)) fs
            end.

(** [open(p, 'rb')] and reading the whole file. *)
Definition read_file (p : path) : M FS bytes :=
  fun fs => match fs_lookup fs p with
            | Some (File data) => (fs, Ok data)
            | Some Dir => (fs, Raise IsADirectoryError)
            | None => (fs, Raise (absent_error fs p))
            end.

(** Every entry lies in a directory. *)
Definition fs_wf (fs : FS) : Prop :=
  map_Forall (fun p _ => fs_lookup fs (parent p) = Some Dir) fs.

(** ** The backend: [keras.models.Model] *)

(** The methods the class forwards to.  A method may change the backend
    (training does) and either returns or raises; [keras_save] yields the
    checkpoint in the framework's native format, which [Model.save(path)]
    stores at [path], and [keras_load_model] is [keras.models.load_model] on
    the content of such a file. *)
Class KerasModel (B ndarray History Scores : Type) := {
  keras_compile : value -> value -> value -> B -> B * (string + unit);
  keras_fit : ndarray -> ndarray -> Z -> Z -> B -> B * (string + History);
  keras_evaluate : ndarray -> ndarray -> Z -> B -> B * (string + Scores);
  keras_predict : ndarray -> Z -> B -> B * (string + ndarray);
  keras_save : B -> B * (string + bytes);
  keras_load_model : bytes -> string + B
}.

Definition from_backend {R} (r : string + R) : result R :=
  match r with
  | inl msg => Raise (BackendError msg)
  | inr a => Ok a
  end.

(** ** [BaseModel] *)

Record BaseModel (B : Type) := Model {
  __class__ : string;
  _params : ModelParams;
  _backend : option B
}.
Arguments Model {B} _ _ _.
Arguments __class__ {B} _.
Arguments _params {B} _.
Arguments _backend {B} _.

Definition BACKEND_FILENAME : string := "backend.h5".
Definition PARAMS_FILENAME : string := "params.pkl".

Section Model.

Context {B ndarray History Scores : Type}.
Context `{!KerasModel B ndarray History Scores}.

(** The classes in scope, by name. *)
Variable class_env : string -> class_def.

Variable list_available_tasks : list task_class.

(** [pickle.dumps] and [pickle.loads] on parameter tables; [None] is a call
    that raises.  The exception of a failed [pickle.dumps] is modelled by the
    one constructor [PicklingError], whichever class pickle raises for the
    object at hand (for some objects it is a [TypeError] or an
    [AttributeError]); that of a failed [pickle.loads] by
    [UnpicklingError]. *)
Variable pickle_dumps : ModelParams -> option bytes.
Variable pickle_loads : bytes -> option ModelParams.

(** [cls.get_default_params()], through the class's own override if it
    has one. *)
Definition cls_get_default_params (cls : string) : ModelParams :=
  match cls_default_params (class_env cls) with
  | Some p => p
  | None => get_default_params
  end.

(** [__init__]: [self._params = params or self.get_default_params()] *)
Definition __init__ (cls : string) (params : option ModelParams)
    (backend : option B) : BaseModel B :=
  {| __class__ := cls;
     _params := match params with
                | Some p => if truthy params then p
                            else cls_get_default_params cls
                | None => cls_get_default_params cls
                end;
     _backend := backend |}.

(** [cls(params=params, backend=backend)]: an abstract class cannot be
    instantiated. *)
Definition new_model (cls : string) (params : option ModelParams)
    (backend : option B) : result (BaseModel B) :=
  if cls_abstract (class_env cls) then Raise TypeError
  else Ok (__init__ cls params backend).

(** Calling an object: only classes are callable here. *)
Definition call (f : value) (params : option ModelParams)
    (backend : option B) : result (BaseModel B) :=
  match f with
  | VClass cls => new_model cls params backend
  | _ => Raise TypeError
  end.

Definition set_params (p : ModelParams) (self : BaseModel B) : BaseModel B :=
  {| __class__ := __class__ self; _params := p; _backend := _backend self |}.

Definition set_backend (b : option B) (self : BaseModel B) : BaseModel B :=
  {| __class__ := __class__ self; _params := _params self; _backend := b |}.

(** A computation on [self._params]. *)
Definition on_params {A} (m : M ModelParams A) : M (BaseModel B) A :=
  zoom _params set_params m.

(** [self._backend.method]: the attribute lookup fails on [None]. *)
Definition backend_attr : M (BaseModel B) unit :=
  fun self => match _backend self with
              | Some _ => (self, Ok tt)
              | None => (self, Raise AttributeError)
              end.

(** [self._backend.method(...)] *)
Definition call_backend {R} (method : B -> B * (string + R)) : M (BaseModel B) R :=
  fun self => match _backend self with
              | Some b => let '(b', r) := method b in
                          (set_backend (Some b') self, from_backend r)
              | None => (self, Raise AttributeError)
              end.

(** [compile]: the bound method [self._backend.compile] is looked up
    first, then the three arguments are read from the params, in order. *)
Definition compile : M (BaseModel B) unit :=
  backend_attr;;
  optimizer ← on_params (getitem "optimizer");
  loss ← on_params (getitem "loss");
  metrics ← on_params (getitem "metrics");
  call_backend (keras_compile optimizer loss metrics).

(** [fit], [evaluate], [predict]: an argument left out is [None] here and
    takes the default of the signature. *)
Definition fit (x y : ndarray) (batch_size epochs : option Z)
    : M (BaseModel B) History :=
  call_backend (keras_fit x y (default 128 batch_size) (default 1 epochs)).

Definition evaluate (x y : ndarray) (batch_size : option Z)
    : M (BaseModel B) Scores :=
  call_backend (keras_evaluate x y (default 128 batch_size)).

Definition predict (x : ndarray) (batch_size : option Z)
    : M (BaseModel B) ndarray :=
  call_backend (keras_predict x (default 128 batch_size)).

(** [guess_and_fill_missing_params]: the method only works on
    [self._params], with [self.__class__] at hand. *)
Definition guess_and_fill_missing_params : M (BaseModel B) unit :=
  fun self => on_params (fill_params list_available_tasks (__class__ self)) self.

(** [all(value is not None for value in self._params.values())] *)
Definition all_params_filled (self : BaseModel B) : bool :=
  forallb (fun kv => negb (is_None kv.2)) (map_to_list (_params self)).

(** [pickle.dump(obj, file)] and [pickle.load(file)] *)
Definition pickle_dump (p : ModelParams) : result bytes :=
  match pickle_dumps p with
  | Some data => Ok data
  | None => Raise PicklingError
  end.

Definition pickle_load (data : bytes) : result ModelParams :=
  match pickle_loads data with
  | Some p => Ok p
  | None => Raise UnpicklingError
  end.

(** The state of [save]: the model and the file system. *)
Definition on_self {A} (m : M (BaseModel B) A) : M (BaseModel B * FS) A :=
  zoom fst (fun self' s => (self', s.2)) m.

Definition on_fs {A} (m : M FS A) : M (BaseModel B * FS) A :=
  zoom snd (fun fs' s => (s.1, fs')) m.

(** [save]: [pickle.dump(self._params, open(params_file_path, mode='wb'))]
    opens the file, which leaves it empty, before it pickles.  What a
    pickling that fails had written by then is not modelled: the file is
    there, and the properties below say nothing of its content in that
    case. *)
Definition save (dirpath : path) : M (BaseModel B * FS) unit :=
  e ← on_fs (path_exists dirpath);
  (if e : bool then raise FileExistsError else on_fs (mkdir dirpath));;
  let backend_file_path := joinpath dirpath BACKEND_FILENAME in
  checkpoint ← on_self (call_backend keras_save);
  on_fs (write_file backend_file_path checkpoint);;
  let params_file_path := joinpath dirpath PARAMS_FILENAME in
  on_fs (write_file params_file_path []);;
  data ← on_self (fun self => (self, pickle_dump (_params self)));
  on_fs (write_file params_file_path data).

(** [load_model]: both files are read and decoded, then the object under
    ['model_class'] is called. *)
Definition load_model (dirpath : path) : M FS (BaseModel B) :=
  let backend_file_path := joinpath dirpath BACKEND_FILENAME in
  checkpoint ← read_file backend_file_path;
  backend ← lift_result (from_backend (keras_load_model checkpoint));
  let params_file_path := joinpath dirpath PARAMS_FILENAME in
  data ← read_file params_file_path;
  params ← lift_result (pickle_load data);
  model_class ← lift_result (getitem "model_class" params).2;
  lift_result (call model_class (Some params) (Some backend)).

End Model.

(** ** Vocabulary of the specification *)

(** [wp m Q s]: running [m] from [s] ends in a state and a result that
    satisfy [Q], whether [m] returns or raises. *)
Definition wp {S A} (m : M S A) (Q : S -> result A -> Prop) (s : S) : Prop :=
  Q (m s).1 (m s).2.

(** The parameters [guess_and_fill_missing_params] looks at, in its order. *)
Definition standard_params : list string :=
  ["name"; "model_class"; "task"; "input_shapes"; "metrics"; "loss"; "optimizer"].

(** [k] holds a value other than [None]. *)
Definition is_set (k : string) (p : ModelParams) : Prop :=
  exists v, p !! k = Some v /\ v <> VNone.

(** [p'] differs from [p] at most at standard parameters that were [None]. *)
Definition only_fills (p p' : ModelParams) : Prop :=
  forall k, p' !! k = p !! k \/ (k ∈ standard_params /\ p !! k = Some VNone).

(** The default of each standard parameter, in the words of the
    specification; [p] is the table the method leaves, in which "the task"
    is looked up. *)
Inductive default_of (tasks : list task_class) (cls : string) (p : ModelParams)
  : string -> value -> Prop :=
| default_of_name : default_of tasks cls p "name" (VStr cls)
| default_of_model_class : default_of tasks cls p "model_class" (VClass cls)
| default_of_task t :
    tasks !! 1%nat = Some t ->
    default_of tasks cls p "task" (VTask t)
| default_of_input_shapes :
    default_of tasks cls p "input_shapes" (VList [VTuple [VInt 30]; VTuple [VInt 30]])
| default_of_metrics t :
    p !! "task" = Some (VTask t) ->
    default_of tasks cls p "metrics" (VList (map VStr (tc_metrics t)))
| default_of_loss t l :
    p !! "task" = Some (VTask t) ->
    tc_losses t !! 0%nat = Some l ->
    default_of tasks cls p "loss" (VStr l)
| default_of_optimizer : default_of tasks cls p "optimizer" (VStr "adam").

(** [k] holds a value in [p], and the default if it was unset in [p0]. *)
Definition good (tasks : list task_class) (cls : string) (p0 : ModelParams)
    (k : string) (p : ModelParams) : Prop :=
  exists v, p !! k = Some v /\ v <> VNone /\
            (p0 !! k = Some VNone -> default_of tasks cls p k v).

(** Half-way through the method: the parameters in [done] are settled, those
    in [todo] are as they were in [p0]. *)
Definition settled (tasks : list task_class) (cls : string) (p0 : ModelParams)
    (done todo : list string) (p : ModelParams) : Prop :=
  Forall (fun k => good tasks cls p0 k p) done /\
  Forall (fun k => p !! k = p0 !! k) todo.

(** The parameters survive [pickle]: dumping succeeds and loading the dump
    gives an equal table. *)
Definition picklable (pickle_dumps : ModelParams -> option bytes)
    (pickle_loads : bytes -> option ModelParams) (p : ModelParams) : Prop :=
  exists data, pickle_dumps p = Some data /\ pickle_loads data = Some p.

(** What holds of [save] on a free path, however it ends: the exception, if
    any, is not [FileExistsError], and once [mkdir] went through the
    directory is there. *)
Definition save_post {B : Type} (d : path) (fs : FS) (s' : BaseModel B * FS)
    (r : result unit) : Prop :=
  r <> Raise FileExistsError /\
  (fs_lookup fs (parent d) = Some Dir -> s'.2 !! d = Some Dir).

(** The outcome of a call that only forwards: the backend as the call left
    it, the rest of the model untouched, and the backend's own answer. *)
Definition forwarded {B R : Type} (self : BaseModel B) (outcome : B * (string + R))
    : BaseModel B * result R :=
  (set_backend (Some outcome.1) self, from_backend outcome.2).

(** The exit condition of the method for [KeyError]: the key is a standard
    parameter and the table lacks it. *)
Definition key_errors (p0 : ModelParams) (p' : ModelParams) (r : result unit) : Prop :=
  dom p' = dom p0 /\
  forall k, r = Raise (KeyError k) -> k ∈ standard_params /\ p' !! k = None.

(** ** A concrete setting to run the definitions in

    A backend that records the calls it receives, a serializer for parameter
    tables, two model classes and the task list of [matchzoo.engine]. *)

Module Demo.

(** What a recording backend remembers of a call. *)
Inductive call_record :=
| Compiled (optimizer loss metrics : value)
| Fitted (x y : list Z) (batch_size epochs : Z)
| Evaluated (x y : list Z) (batch_size : Z)
| Predicted (x : list Z) (batch_size : Z)
| Saved
| Loaded (checkpoint : bytes).

(** The backend answers with what it was asked, so that a forwarded call
    can be told from any other. *)
#[global] Instance recorder : KerasModel (list call_record) (list Z) (list Z) Z := {
  keras_compile optimizer loss metrics log :=
    ((log ++ [Compiled optimizer loss metrics])%list, inr tt);
  keras_fit x y batch_size epochs log :=
    ((log ++ [Fitted x y batch_size epochs])%list, inr [batch_size; epochs]);
  keras_evaluate x y batch_size log :=
    ((log ++ [Evaluated x y batch_size])%list, inr batch_size);
  keras_predict x batch_size log :=
    ((log ++ [Predicted x batch_size])%list, inr (batch_size :: x));
  keras_save log :=
    ((log ++ [Saved])%list, inr (x89 :: repeat x2a (length log)));
  keras_load_model checkpoint :=
    match checkpoint with
    | x89 :: _ => inr [Loaded checkpoint]
    | _ => inl "bad file signature"
    end
}.

Definition tasks : list task_class :=
  [ TaskClass "BaseTask" true [] [];
    TaskClass "Classification" false ["categorical_crossentropy"] ["acc"];
    TaskClass "Ranking" false ["mse"] ["mae"] ].

(** [BaseModel] is abstract; [MyModel] overrides [get_default_params] as
    in the docstring; every other name is a class like [NaiveModel], which
    inherits it. *)
Definition classes (name : string) : class_def :=
  if bool_decide (name = "BaseModel") then ClassDef true None
  else if bool_decide (name = "MyModel") then
    ClassDef false
      (Some (<["num_eggs" := VInt 512]> (<["ham_type" := VStr "Parma Ham"]>
             ModelParams_new)))
  else ClassDef false None.

(** The serializer: a value becomes a tree of tagged nodes over integer
    and string leaves, a parameter table the list of its entries, and the
    list a number written out bit by bit, one byte per bit. *)
Abbreviation tree := (gen_tree (Z + string)).

Definition leafZ (z : Z) : tree := GenLeaf (inl z).
Definition leafS (s : string) : tree := GenLeaf (inr s).

Definition task_to_tree (t : task_class) : tree :=
  GenNode 7 [leafS (tc_name t);
             leafZ (if tc_abstract t then 1 else 0);
             GenNode 0 (map leafS (tc_losses t));
             GenNode 0 (map leafS (tc_metrics t))].

Fixpoint value_to_tree (v : value) : tree :=
  match v with
  | VNone => GenNode 0 []
  | VBool b => GenNode 1 [leafZ (if b then 1 else 0)]
  | VInt z => GenNode 2 [leafZ z]
  | VStr s => GenNode 3 [leafS s]
  | VTuple items => GenNode 4 (map value_to_tree items)
  | VList items => GenNode 5 (map value_to_tree items)
  | VClass name => GenNode 6 [leafS name]
  | VTask t => task_to_tree t
  end.

Definition tree_to_string (t : tree) : option string :=
  match t with GenLeaf (inr s) => Some s | _ => None end.

Definition tree_to_bool (t : tree) : option bool :=
  match t with
  | GenLeaf (inl 0) => Some false
  | GenLeaf (inl 1) => Some true
  | _ => None
  end.

Definition tree_to_task (ts : list tree) : option task_class :=
  match ts with
  | [n; a; GenNode 0 ls; GenNode 0 ms] =>
      n ← tree_to_string n;
      a ← tree_to_bool a;
      ls ← mapM tree_to_string ls;
      ms ← mapM tree_to_string ms;
      Some (TaskClass n a ls ms)
  | _ => None
  end.

Fixpoint tree_to_value (t : tree) : option value :=
  match t with
  | GenLeaf _ => None
  | GenNode tag ts =>
      match tag, ts with
      | 0%nat, [] => Some VNone
      | 1%nat, [b] => VBool <$> tree_to_bool b
      | 2%nat, [GenLeaf (inl z)] => Some (VInt z)
      | 3%nat, [GenLeaf (inr s)] => Some (VStr s)
      | 4%nat, _ => VTuple <$> mapM tree_to_value ts
      | 5%nat, _ => VList <$> mapM tree_to_value ts
      | 6%nat, [GenLeaf (inr s)] => Some (VClass s)
      | 7%nat, _ => VTask <$> tree_to_task ts
      | _, _ => None
      end
  end.

Fixpoint positive_to_bytes (p : positive) : bytes :=
  match p with
  | xH => []
  | xO q => x00 :: positive_to_bytes q
  | xI q => x01 :: positive_to_bytes q
  end.

Fixpoint bytes_to_positive (bs : bytes) : option positive :=
  match bs with
  | [] => Some xH
  | x00 :: rest => xO <$> bytes_to_positive rest
  | x01 :: rest => xI <$> bytes_to_positive rest
  | _ => None
  end.

Definition entry_to_tree (kv : string * value) : string * tree :=
  (kv.1, value_to_tree kv.2).

Definition dumps (p : ModelParams) : option bytes :=
  Some (positive_to_bytes (encode (entry_to_tree <$> map_to_list p))).

Definition entry_of_tree (kt : string * tree) : option (string * value) :=
  v ← tree_to_value kt.2; Some (kt.1, v).

Definition loads (data : bytes) : option ModelParams :=
  n ← bytes_to_positive data;
  entries ← decode n;
  list_to_map <$> mapM entry_of_tree entries.

(** A model as [NaiveModel()] builds it, on a backend that has recorded
    nothing yet; the same model after [guess_and_fill_missing_params]; the
    directory it is saved to. *)
Definition naive : BaseModel (list call_record) :=
  __init__ classes "NaiveModel" None (Some []).

Definition naive_filled : BaseModel (list call_record) :=
  (guess_and_fill_missing_params tasks naive).1.

(** A model with one standard and one own parameter set by hand, as in the
    docstring of [get_default_params]. *)
Definition tuned : BaseModel (list call_record) :=
  set_params (<["optimizer" := VStr "sgd"]> (<["my_param" := VStr "param"]>
              (_params naive))) naive.

Definition saved : path := ["saved_model"].

(** The model and the file system after [naive_filled.save(saved)] in an
    empty directory, and after [naive.save(saved)]. *)
Definition after_save_filled : BaseModel (list call_record) * FS :=
  (save dumps saved (naive_filled, ∅)).1.

Definition after_save_unfilled : BaseModel (list call_record) * FS :=
  (save dumps saved (naive, ∅)).1.

End Demo.

(** * Properties *)

Lemma is_None_true v : is_None v = true <-> v = VNone.
Proof. by destruct v. Qed.

Lemma is_None_false v : is_None v = false <-> v <> VNone.
Proof. by destruct v. Qed.

(** ** Reasoning about computations *)

Lemma wp_run {S A} (m : M S A) Q s s' r :
  wp m Q s -> m s = (s', r) -> Q s' r.
Proof. unfold wp. intros H E. by rewrite E in H. Qed.

Lemma wp_bind {S A C} (m : M S A) (k : A -> M S C) Q s :
  wp m (fun s' r => match r with
                    | Ok a => wp (k a) Q s'
                    | Raise e => Q s' (Raise e)
                    end) s ->
  wp (m ≫= k) Q s.
Proof.
  unfold wp, mbind, M_bind, bind. by destruct (m s) as [s' [a|e]].
Qed.

Lemma wp_mono {S A} (m : M S A) (Q Q' : S -> result A -> Prop) s :
  (forall s' r, Q s' r -> Q' s' r) -> wp m Q s -> wp m Q' s.
Proof. unfold wp. auto. Qed.

Lemma wp_setitem k v (Q : ModelParams -> result unit -> Prop) p :
  Q (<[k := v]> p) (Ok tt) -> wp (setitem k v) Q p.
Proof. done. Qed.

Lemma wp_lift_result {S A} (r : result A) (Q : S -> result A -> Prop) s :
  Q s r -> wp (lift_result r) Q s.
Proof. done. Qed.

Lemma wp_getitem k (Q : ModelParams -> result value -> Prop) p :
  match p !! k with
  | Some v => Q p (Ok v)
  | None => Q p (Raise (KeyError k))
  end ->
  wp (getitem k) Q p.
Proof. unfold wp, getitem. by destruct (p !! k). Qed.

(** One [if self._params[k] is None: body] followed by the rest of the
    method: [I] holds before, [J] after, and [Q] is owed at every exit. *)
Lemma wp_fill_step (I J : ModelParams -> Prop) (Q : ModelParams -> result unit -> Prop)
    k (body rest : M ModelParams unit) p :
  I p ->
  (forall p, I p -> p !! k = None -> Q p (Raise (KeyError k))) ->
  (forall p v, I p -> p !! k = Some v -> v <> VNone -> J p) ->
  (forall p, I p -> p !! k = Some VNone ->
     wp body (fun p' r => match r with
                          | Ok _ => J p'
                          | Raise e => Q p' (Raise e)
                          end) p) ->
  (forall p, J p -> wp rest Q p) ->
  wp (v ← getitem k; when (is_None v) body;; rest) Q p.
Proof.
  intros HI Hkey Hkeep Hbody Hrest.
  apply wp_bind, wp_getitem.
  destruct (p !! k) as [v|] eqn:Hk; [|by apply Hkey].
  apply wp_bind.
  destruct (is_None v) eqn:Hv.
  - apply is_None_true in Hv as ->.
    simpl. eapply wp_mono; [|by apply Hbody].
    intros p' [[]|e]; auto.
  - apply is_None_false in Hv.
    simpl. unfold wp; simpl. apply Hrest. eauto.
Qed.

Lemma wp_fill_last (I : ModelParams -> Prop) (Q : ModelParams -> result unit -> Prop)
    k (body : M ModelParams unit) p :
  I p ->
  (forall p, I p -> p !! k = None -> Q p (Raise (KeyError k))) ->
  (forall p v, I p -> p !! k = Some v -> v <> VNone -> Q p (Ok tt)) ->
  (forall p, I p -> p !! k = Some VNone -> wp body Q p) ->
  wp (v ← getitem k; when (is_None v) body) Q p.
Proof.
  intros HI Hkey Hkeep Hbody.
  apply wp_bind, wp_getitem.
  destruct (p !! k) as [v|] eqn:Hk; [|by apply Hkey].
  destruct (is_None v) eqn:Hv.
  - apply is_None_true in Hv as ->. simpl. by apply Hbody.
  - apply is_None_false in Hv. simpl. unfold wp; simpl. eauto.
Qed.

Lemma only_fills_refl p : only_fills p p.
Proof. intros k. by left. Qed.

Lemma only_fills_insert p0 p k x :
  only_fills p0 p -> k ∈ standard_params -> p !! k = Some VNone ->
  only_fills p0 (<[k := x]> p).
Proof.
  intros H Hk Hp j. destruct (decide (k = j)) as [<-|Hne].
  - right. split; [done|]. destruct (H k) as [E|[_ E]]; congruence.
  - rewrite lookup_insert_ne by done. apply H.
Qed.

Ltac run_body :=
  unfold wp, mbind, M_bind, bind, getitem, lift_result, setitem; simpl;
  repeat case_match; simplify_eq/=.

Lemma fill_params_only_fills_from tasks cls p0 p :
  only_fills p0 p ->
  wp (fill_params tasks cls) (fun p' _ => only_fills p0 p') p.
Proof.
  unfold fill_params. revert p.
  repeat (intros p H0;
    eapply (wp_fill_step (only_fills p0) (only_fills p0)); [by eauto..| |];
    [ clear dependent p; intros p Hp Hk; run_body; eauto;
      apply only_fills_insert; eauto; set_solver
    | clear dependent p ]).
  intros p H0.
  eapply (wp_fill_last (only_fills p0)); eauto.
  intros p' Hp Hk; run_body. apply only_fills_insert; eauto; set_solver.
Qed.

Section Defaults.

Variable tasks : list task_class.
Variable cls : string.
Variable p0 : ModelParams.

Lemma default_of_same_task p p' k v :
  p' !! "task" = p !! "task" ->
  default_of tasks cls p k v -> default_of tasks cls p' k v.
Proof.
  intros E H. destruct H; econstructor; eauto; congruence.
Qed.

Lemma default_of_no_task p p' k v :
  k ∉ ["metrics"; "loss"] ->
  default_of tasks cls p k v -> default_of tasks cls p' k v.
Proof.
  intros Hk H. destruct H; try (by econstructor); set_solver.
Qed.

Lemma settled_start : settled tasks cls p0 [] standard_params p0.
Proof. split; [constructor|]. by apply Forall_forall. Qed.

Lemma settled_keep done k todo p v :
  settled tasks cls p0 done (k :: todo) p -> p !! k = Some v -> v <> VNone ->
  settled tasks cls p0 (done ++ [k]) todo p.
Proof.
  intros [Hd Ht] Hk Hv. apply Forall_cons in Ht as [Hk0 Ht].
  split; [|done]. apply Forall_app. split; [done|].
  apply Forall_singleton. exists v. repeat split; [done..|].
  intros E. congruence.
Qed.

Lemma settled_fill done k todo p x :
  settled tasks cls p0 done (k :: todo) p ->
  k ∉ done -> k ∉ todo ->
  (k <> "task" \/ Forall (fun j => j ∉ ["metrics"; "loss"]) done) ->
  x <> VNone ->
  default_of tasks cls (<[k := x]> p) k x ->
  settled tasks cls p0 (done ++ [k]) todo (<[k := x]> p).
Proof.
  intros [Hd Ht] Hkd Hkt Htask Hx Hdef.
  apply Forall_cons in Ht as [Hk0 Ht].
  split.
  - apply Forall_app. split.
    + apply Forall_forall. intros j Hj.
      rewrite Forall_forall in Hd. destruct (Hd j Hj) as (v & Hv & Hne & Hv0).
      assert (j <> k) by (intros ->; done).
      exists v. rewrite lookup_insert_ne by done.
      repeat split; [done..|]. intros E. specialize (Hv0 E).
      destruct Htask as [Hnt|Hdone].
      * eapply default_of_same_task; [|done]. by rewrite lookup_insert_ne.
      * rewrite Forall_forall in Hdone. eapply default_of_no_task; eauto.
    + apply Forall_singleton. exists x. rewrite lookup_insert_eq. done.
  - apply Forall_forall. intros j Hj. rewrite Forall_forall in Ht.
    assert (j <> k) by (intros ->; done).
    rewrite lookup_insert_ne by done. auto.
Qed.

End Defaults.

Lemma default_task_Ok tasks v :
  default_task tasks = Ok v ->
  exists t, tasks !! 1%nat = Some t /\ tc_abstract t = false /\ v = VTask t.
Proof.
  unfold default_task, new_task. intros H.
  destruct (tasks !! 1%nat) as [t|]; [|done].
  destruct (tc_abstract t) eqn:E; [done|]. exists t. by simplify_eq.
Qed.

Lemma list_available_metrics_Ok task v :
  list_available_metrics task = Ok v ->
  exists t, task = VTask t /\ v = VList (map VStr (tc_metrics t)).
Proof. destruct task; intros H; simplify_eq/=. eauto. Qed.

Lemma list_available_losses_Ok task v :
  list_available_losses task = Ok v ->
  exists t, task = VTask t /\ v = VList (map VStr (tc_losses t)).
Proof. destruct task; intros H; simplify_eq/=. eauto. Qed.

Lemma subscript_names_Ok names i v :
  subscript (VList (map VStr names)) i = Ok v ->
  exists s, names !! i = Some s /\ v = VStr s.
Proof.
  simpl. rewrite list_lookup_fmap. destruct (names !! i) as [s|]; [|done].
  simpl. intros H. exists s. by simplify_eq.
Qed.

Ltac invert_defaults :=
  repeat match goal with
  | H : default_task _ = Ok _ |- _ =>
      apply default_task_Ok in H as (? & ? & ? & ->)
  | H : list_available_metrics _ = Ok _ |- _ =>
      apply list_available_metrics_Ok in H as (? & -> & ->)
  | H : list_available_losses _ = Ok _ |- _ =>
      apply list_available_losses_Ok in H as (? & -> & ->)
  | H : subscript (VList (map VStr _)) _ = Ok _ |- _ =>
      apply subscript_names_Ok in H as (? & ? & ->)
  end.

Ltac fill_step tasks cls p0 ks_done ks_todo k :=
  let p := fresh "p" in
  let Hp := fresh "Hp" in
  let Hk := fresh "Hk" in
  eapply (wp_fill_step (settled tasks cls p0 ks_done (k :: ks_todo))
                       (settled tasks cls p0 (ks_done ++ [k]) ks_todo));
  [ eassumption
  | done
  | intros p v Hp Hk ?; by eapply (settled_keep tasks cls p0 ks_done k ks_todo)
  | intros p Hp Hk; run_body; try done; invert_defaults;
    apply (settled_fill tasks cls p0 ks_done k ks_todo); [ done | set_solver | set_solver
      | first [left; done | right; repeat constructor; set_solver]
      | done
      | econstructor; rewrite ?lookup_insert_ne by done; eauto ]
  | simpl; intros p Hp ].

Lemma fill_params_defaults_from tasks cls p0 p :
  settled tasks cls p0 [] standard_params p ->
  wp (fill_params tasks cls)
     (fun p' r => r = Ok tt -> settled tasks cls p0 standard_params [] p') p.
Proof.
  unfold fill_params, standard_params. intros Hp.
  fill_step tasks cls p0 (@nil string)
    ["model_class"; "task"; "input_shapes"; "metrics"; "loss"; "optimizer"] "name".
  fill_step tasks cls p0 ["name"]
    ["task"; "input_shapes"; "metrics"; "loss"; "optimizer"] "model_class".
  fill_step tasks cls p0 ["name"; "model_class"]
    ["input_shapes"; "metrics"; "loss"; "optimizer"] "task".
  fill_step tasks cls p0 ["name"; "model_class"; "task"]
    ["metrics"; "loss"; "optimizer"] "input_shapes".
  fill_step tasks cls p0 ["name"; "model_class"; "task"; "input_shapes"]
    ["loss"; "optimizer"] "metrics".
  fill_step tasks cls p0 ["name"; "model_class"; "task"; "input_shapes"; "metrics"]
    ["optimizer"] "loss".
  eapply (wp_fill_last (settled tasks cls p0
            ["name"; "model_class"; "task"; "input_shapes"; "metrics"; "loss"]
            ["optimizer"])); [eassumption | done | |].
  - intros p7 v H Hk Hv _.
    by eapply (settled_keep tasks cls p0
      ["name"; "model_class"; "task"; "input_shapes"; "metrics"; "loss"]
      "optimizer" []).
  - intros p7 H Hk _. run_body.
    apply (settled_fill tasks cls p0
      ["name"; "model_class"; "task"; "input_shapes"; "metrics"; "loss"]
      "optimizer" []);
      [done | set_solver | set_solver | by left | done | constructor].
Qed.

Lemma fill_params_defaults tasks cls p0 p' :
  fill_params tasks cls p0 = (p', Ok tt) ->
  forall k, k ∈ standard_params -> good tasks cls p0 k p'.
Proof.
  intros Hrun.
  pose proof (fill_params_defaults_from tasks cls p0 p0 (settled_start tasks cls p0)) as H.
  eapply wp_run in H; [|done]. destruct (H eq_refl) as [Hgood _].
  by apply Forall_forall.
Qed.

Lemma fill_step_eq k (body rest : M ModelParams unit) p :
  (v ← getitem k; when (is_None v) body;; rest) p =
  match p !! k with
  | None => (p, Raise (KeyError k))
  | Some v => if is_None v then (body;; rest) p else rest p
  end.
Proof.
  unfold mbind, M_bind, bind, getitem.
  destruct (p !! k) as [v|]; [|done]. by destruct (is_None v).
Qed.

Lemma fill_last_eq k (body : M ModelParams unit) p :
  (v ← getitem k; when (is_None v) body) p =
  match p !! k with
  | None => (p, Raise (KeyError k))
  | Some v => if is_None v then body p else (p, Ok tt)
  end.
Proof.
  unfold mbind, M_bind, bind, getitem.
  destruct (p !! k) as [v|]; [|done]. by destruct (is_None v).
Qed.

Lemma fill_step_skip k (body rest : M ModelParams unit) p :
  is_set k p ->
  (v ← getitem k; when (is_None v) body;; rest) p = rest p.
Proof.
  intros (v & Hk & Hv). rewrite fill_step_eq, Hk.
  apply is_None_false in Hv. by rewrite Hv.
Qed.

Lemma fill_last_skip k (body : M ModelParams unit) p :
  is_set k p ->
  (v ← getitem k; when (is_None v) body) p = (p, Ok tt).
Proof.
  intros (v & Hk & Hv). rewrite fill_last_eq, Hk.
  apply is_None_false in Hv. by rewrite Hv.
Qed.

Lemma is_set_insert ks k x p :
  Forall (fun j => is_set j p) ks -> x <> VNone ->
  Forall (fun j => is_set j (<[k := x]> p)) (ks ++ [k]).
Proof.
  intros H Hx. apply Forall_app. split.
  - eapply Forall_impl; [done|]. intros j (v & Hj & Hv).
    destruct (decide (k = j)) as [->|Hne].
    + exists x. by rewrite lookup_insert_eq.
    + exists v. by rewrite lookup_insert_ne.
  - apply Forall_singleton. exists x. by rewrite lookup_insert_eq.
Qed.

(** A table in which every standard parameter is set is left alone. *)
Lemma fill_params_filled tasks cls p :
  Forall (fun k => is_set k p) standard_params ->
  fill_params tasks cls p = (p, Ok tt).
Proof.
  unfold standard_params, fill_params. intros H.
  repeat match goal with
  | H : Forall _ (_ :: _) |- _ => apply Forall_cons in H as [? H]
  end.
  repeat (rewrite fill_step_skip by assumption).
  by rewrite fill_last_skip.
Qed.

(** Replay the method on the state [p] it stopped in: the steps already
    settled are skipped, the next one stops as before. *)
Ltac replay :=
  unfold fill_params;
  repeat match goal with
  | H : Forall _ (_ :: _) |- _ => apply Forall_cons in H as [? H]
  end;
  repeat (rewrite fill_step_skip by assumption);
  first [rewrite fill_step_eq | rewrite fill_last_eq];
  unfold mbind, M_bind, bind, lift_result, getitem;
  repeat match goal with
  | H : ?x = _ |- context [?x] => rewrite H; cbv beta iota
  end;
  try reflexivity.

Ltac again_step tasks cls ks k :=
  let p := fresh "p" in
  let Hp := fresh "Hp" in
  let Hk := fresh "Hk" in
  eapply (wp_fill_step (fun p => Forall (fun j => is_set j p) ks)
                       (fun p => Forall (fun j => is_set j p) (ks ++ [k]))
                       (fun p' r => fill_params tasks cls p' = (p', r)));
  [ eassumption
  | intros p Hp Hk; replay
  | intros p v Hp Hk ?; apply Forall_app; split;
    [done | apply Forall_singleton; by exists v]
  | intros p Hp Hk; run_body;
    first [ invert_defaults; by apply (is_set_insert ks k) | replay ]
  | simpl; intros p Hp ].

Lemma fill_params_again tasks cls p :
  wp (fill_params tasks cls)
     (fun p' r => fill_params tasks cls p' = (p', r)) p.
Proof.
  assert (Forall (fun j => is_set j p) []) as Hp by constructor.
  unfold fill_params at 1.
  again_step tasks cls (@nil string) "name".
  again_step tasks cls ["name"] "model_class".
  again_step tasks cls ["name"; "model_class"] "task".
  again_step tasks cls ["name"; "model_class"; "task"] "input_shapes".
  again_step tasks cls ["name"; "model_class"; "task"; "input_shapes"] "metrics".
  again_step tasks cls ["name"; "model_class"; "task"; "input_shapes"; "metrics"] "loss".
  eapply (wp_fill_last (fun p => Forall (fun j => is_set j p)
            ["name"; "model_class"; "task"; "input_shapes"; "metrics"; "loss"]));
    [eassumption | | |].
  - intros p6 Hp6 Hk. replay.
  - intros p6 v Hp6 Hk Hv. apply fill_params_filled.
    apply (Forall_app_2 _
      ["name"; "model_class"; "task"; "input_shapes"; "metrics"; "loss"]
      ["optimizer"]); [done|].
    apply Forall_singleton. by exists v.
  - intros p6 Hp6 Hk. apply wp_setitem, fill_params_filled.
    by apply (is_set_insert
      ["name"; "model_class"; "task"; "input_shapes"; "metrics"; "loss"]
      "optimizer").
Qed.

(** ** A fresh table *)

Lemma ModelParams_new_lookup k :
  ModelParams_new !! k =
    if bool_decide (k ∈ standard_params) then Some VNone else None.
Proof.
  unfold ModelParams_new, standard_params.
  repeat (rewrite lookup_insert; destruct (decide _) as [<-|?];
          [case_bool_decide as Hin; [done | exfalso; apply Hin; set_solver] |]).
  rewrite lookup_empty. rewrite bool_decide_eq_false_2; [done|]. set_solver.
Qed.

Ltac fresh_lookup :=
  rewrite ?lookup_insert_ne by done;
  rewrite ModelParams_new_lookup;
  rewrite bool_decide_eq_true_2 by (unfold standard_params; set_solver).

Lemma getitem_Some (p : ModelParams) k v :
  p !! k = Some v -> getitem k p = (p, Ok v).
Proof. unfold getitem. by intros ->. Qed.

Lemma bind_assoc_run {S A C D} (m : M S A) (f : A -> M S C) (g : C -> M S D) s :
  ((m ≫= f) ≫= g) s = (m ≫= (fun a => f a ≫= g)) s.
Proof. unfold mbind, M_bind, bind. by destruct (m s) as [s' [a|e]]. Qed.

Lemma bind_lift_result_Ok {S A C} (a : A) (k : A -> M S C) s :
  (lift_result (Ok a) ≫= k) s = k a s.
Proof. done. Qed.

Lemma bind_setitem {C} key v (k : unit -> M ModelParams C) p :
  (setitem key v ≫= k) p = k tt (<[key := v]> p).
Proof. done. Qed.

Lemma bind_getitem {C} key v (k : value -> M ModelParams C) (p : ModelParams) :
  p !! key = Some v -> (getitem key ≫= k) p = k v p.
Proof. unfold mbind, M_bind, bind, getitem. by intros ->. Qed.

(** On a fresh table the method returns as soon as there is a second task
    class, not abstract, with a loss to offer. *)
Lemma fill_params_new_returns tasks cls t l :
  tasks !! 1%nat = Some t -> tc_abstract t = false ->
  tc_losses t !! 0%nat = Some l ->
  (fill_params tasks cls ModelParams_new).2 = Ok tt.
Proof.
  intros Ht Ha Hl. unfold fill_params.
  rewrite fill_step_eq. fresh_lookup. simpl. rewrite bind_setitem.
  rewrite fill_step_eq. fresh_lookup. simpl. rewrite bind_setitem.
  rewrite fill_step_eq. fresh_lookup. simpl.
  unfold default_task, new_task. rewrite Ht, Ha.
  rewrite bind_assoc_run, bind_lift_result_Ok, bind_setitem.
  rewrite fill_step_eq. fresh_lookup. simpl. rewrite bind_setitem.
  rewrite fill_step_eq. fresh_lookup. simpl.
  rewrite bind_assoc_run.
  erewrite bind_getitem;
    [|rewrite lookup_insert_ne by done; apply lookup_insert_eq].
  simpl. rewrite bind_assoc_run, bind_lift_result_Ok, bind_setitem.
  rewrite fill_step_eq. fresh_lookup. simpl.
  rewrite bind_assoc_run.
  erewrite bind_getitem;
    [|rewrite !lookup_insert_ne by done; apply lookup_insert_eq].
  simpl. rewrite bind_assoc_run, bind_lift_result_Ok.
  simpl. change (map VStr (tc_losses t)) with (VStr <$> tc_losses t).
  rewrite list_lookup_fmap, Hl. simpl.
  rewrite bind_assoc_run, bind_lift_result_Ok, bind_setitem.
  rewrite fill_last_eq. fresh_lookup. done.
Qed.

(** ** [guess_and_fill_missing_params] on a model *)

Lemma guess_and_fill_run {B} tasks (self : BaseModel B) :
  guess_and_fill_missing_params tasks self =
  (set_params (fill_params tasks (__class__ self) (_params self)).1 self,
   (fill_params tasks (__class__ self) (_params self)).2).
Proof.
  unfold guess_and_fill_missing_params, on_params, zoom.
  by destruct (fill_params _ _ _).
Qed.

(** The method does return on a model built with no params, of a class that
    keeps the base [get_default_params], as soon as the second available
    task class can be instantiated and offers a loss. *)
Lemma guess_and_fill_missing_params_returns {B} (class_env : string -> class_def)
    tasks cls (backend : option B) t l :
  cls_default_params (class_env cls) = None ->
  tasks !! 1%nat = Some t -> tc_abstract t = false ->
  tc_losses t !! 0%nat = Some l ->
  (guess_and_fill_missing_params tasks (__init__ class_env cls None backend)).2 =
    Ok tt.
Proof.
  intros Hc Ht Ha Hl. rewrite guess_and_fill_run. simpl.
  unfold cls_get_default_params. rewrite Hc.
  by apply (fill_params_new_returns tasks cls t l).
Qed.

Lemma guess_and_fill_good {B} tasks (self self' : BaseModel B) k :
  guess_and_fill_missing_params tasks self = (self', Ok tt) ->
  k ∈ standard_params ->
  good tasks (__class__ self) (_params self) k (_params self').
Proof.
  rewrite guess_and_fill_run. intros Hrun Hk.
  destruct (fill_params tasks (__class__ self) (_params self)) as [p' r] eqn:E.
  cbn [fst snd] in Hrun. injection Hrun as <- ->. cbn [_params set_params].
  by apply (fill_params_defaults tasks (__class__ self) (_params self) p').
Qed.

(** C5: after [guess_and_fill_missing_params] returns, each of name,
    model_class, task, input_shapes, metrics, loss and optimizer holds a
    value other than [None], and a parameter that was [None] before the call
    holds its default: the class's name, the class, an instance of the second
    available task, [[(30,), (30,)]], the metrics list of the task, the first
    loss of the task, ['adam']. *)
Theorem guess_and_fill_missing_params_defaults {B} tasks (self self' : BaseModel B) k :
  guess_and_fill_missing_params tasks self = (self', Ok tt) ->
  k ∈ standard_params ->
  exists v, _params self' !! k = Some v /\ v <> VNone /\
            (_params self !! k = Some VNone ->
             default_of tasks (__class__ self) (_params self') k v).
Proof. apply guess_and_fill_good. Qed.

(** C6: [guess_and_fill_missing_params] only fills missing values.  However
    the call ends, a parameter that held a value other than [None] holds the
    same value afterwards, no key outside the seven standard ones is
    assigned, and the class and the backend of the model are untouched. *)
Theorem guess_and_fill_missing_params_only_fills {B} tasks (self : BaseModel B) :
  let self' := (guess_and_fill_missing_params tasks self).1 in
  (forall k v, _params self !! k = Some v -> v <> VNone ->
               _params self' !! k = Some v) /\
  (forall k, k ∉ standard_params -> _params self' !! k = _params self !! k) /\
  __class__ self' = __class__ self /\
  _backend self' = _backend self.
Proof.
  rewrite guess_and_fill_run. simpl.
  pose proof (fill_params_only_fills_from tasks (__class__ self)
                (_params self) (_params self) (only_fills_refl _)) as H.
  unfold wp in H.
  repeat split.
  - intros k v Hk Hv. destruct (H k) as [->|[_ E]]; [done|congruence].
  - intros k Hk. destruct (H k) as [->|[E _]]; done.
Qed.

(** C9: [guess_and_fill_missing_params] is idempotent.  A second call right
    after the first ends as the first did and leaves the model, with every
    parameter value, as the first call left it. *)
Theorem guess_and_fill_missing_params_idempotent {B} tasks (self : BaseModel B) :
  let once := guess_and_fill_missing_params tasks self in
  guess_and_fill_missing_params tasks once.1 = once.
Proof.
  simpl. rewrite (guess_and_fill_run tasks self). simpl.
  rewrite guess_and_fill_run. simpl.
  pose proof (fill_params_again tasks (__class__ self) (_params self)) as H.
  unfold wp in H. rewrite H. simpl. done.
Qed.

(** ** Paths and the file system *)

Lemma parent_joinpath d name : parent (joinpath d name) = d.
Proof. apply removelast_last. Qed.

Lemma joinpath_ne d name : joinpath d name <> d.
Proof.
  unfold joinpath. intros E. apply (f_equal length) in E.
  rewrite length_app in E. simpl in E. lia.
Qed.

Lemma joinpath_inj d name name' :
  joinpath d name = joinpath d name' -> name = name'.
Proof. unfold joinpath. intros E. apply app_inv_head in E. congruence. Qed.

Lemma fs_lookup_joinpath fs d name :
  fs_lookup fs (joinpath d name) = fs !! joinpath d name.
Proof. unfold joinpath. by destruct d. Qed.

Lemma fs_lookup_None fs d : fs_lookup fs d = None -> fs !! d = None /\ d <> [].
Proof. by destruct d. Qed.

Lemma fs_lookup_ne_nil fs d : d <> [] -> fs_lookup fs d = fs !! d.
Proof. by destruct d. Qed.

(** In a well-formed file system nothing lies in a directory that does not
    exist. *)
Lemma fs_wf_no_child fs d name :
  fs_wf fs -> fs_lookup fs d = None -> fs !! joinpath d name = None.
Proof.
  intros Hwf Hd. destruct (fs !! joinpath d name) as [n|] eqn:E; [|done].
  apply Hwf in E. rewrite parent_joinpath in E. congruence.
Qed.

Lemma mkdir_Ok_inv d fs fs' :
  mkdir d fs = (fs', Ok tt) ->
  fs_lookup fs d = None /\ fs_lookup fs (parent d) = Some Dir /\
  fs' = <[d := Dir]> fs.
Proof.
  unfold mkdir, check_parent, put_node, mbind, M_bind, bind.
  destruct (fs_lookup fs d); [done|].
  destruct (fs_lookup fs (parent d)) as [[|?]|]; try done.
  intros E. by simplify_eq.
Qed.

Lemma write_file_Ok_inv p data fs fs' :
  write_file p data fs = (fs', Ok tt) -> fs' = <[p := File data]> fs.
Proof.
  unfold write_file, check_parent, put_node, mbind, M_bind, bind.
  destruct (fs_lookup fs p) as [[|?]|]; try done.
  - intros E. by simplify_eq.
  - destruct (fs_lookup fs (parent p)) as [[|?]|]; try done.
    intros E. by simplify_eq.
Qed.

(** Writing never raises [FileExistsError], and neither does [mkdir] on a
    path that is free. *)
Lemma absent_error_cases fs p :
  absent_error fs p = NotADirectoryError \/ absent_error fs p = FileNotFoundError.
Proof. unfold absent_error. destruct (existsb _ _); auto. Qed.

Lemma absent_error_not_exists fs p : absent_error fs p <> FileExistsError.
Proof. by destruct (absent_error_cases fs p) as [-> | ->]. Qed.

Lemma write_file_not_exists p data fs :
  (write_file p data fs).2 <> Raise FileExistsError.
Proof.
  unfold write_file, check_parent, put_node, mbind, M_bind, bind.
  destruct (fs_lookup fs p) as [[|?]|]; try done.
  destruct (fs_lookup fs (parent p)) as [[|?]|]; try done.
  simpl. intros [= E]. by apply absent_error_not_exists in E.
Qed.

Lemma mkdir_not_exists d fs :
  fs_lookup fs d = None -> (mkdir d fs).2 <> Raise FileExistsError.
Proof.
  unfold mkdir, check_parent, put_node, mbind, M_bind, bind. intros ->.
  destruct (fs_lookup fs (parent d)) as [[|?]|]; try done.
  simpl. intros [= E]. by apply absent_error_not_exists in E.
Qed.

(** ** Inversion of computations that returned *)

Lemma bind_Ok_inv {S A C} (m : M S A) (k : A -> M S C) s s'' c :
  (m ≫= k) s = (s'', Ok c) ->
  exists s' a, m s = (s', Ok a) /\ k a s' = (s'', Ok c).
Proof.
  unfold mbind, M_bind, bind. destruct (m s) as [s' [a|e]]; [|done]. eauto.
Qed.

Lemma bind_Ok {S A C} (m : M S A) (k : A -> M S C) s s' a :
  m s = (s', Ok a) -> (m ≫= k) s = k a s'.
Proof. unfold mbind, M_bind, bind. by intros ->. Qed.

Lemma bind_Raise {S A C} (m : M S A) (k : A -> M S C) s s' e :
  m s = (s', Raise e) -> (m ≫= k) s = (s', Raise e).
Proof. unfold mbind, M_bind, bind. by intros ->. Qed.

Section Save.

Context {B ndarray History Scores : Type}.
Context `{!KerasModel B ndarray History Scores}.
Variable pickle_dumps : ModelParams -> option bytes.

Lemma on_fs_run {A} (m : M FS A) (self : BaseModel B) fs :
  on_fs m (self, fs) = ((self, (m fs).1), (m fs).2).
Proof. unfold on_fs, zoom. simpl. by destruct (m fs). Qed.

Lemma on_self_run {A} (m : M (BaseModel B) A) (self : BaseModel B) (fs : FS) :
  on_self m (self, fs) = (((m self).1, fs), (m self).2).
Proof. unfold on_self, zoom. simpl. by destruct (m self). Qed.

Lemma call_backend_Ok_inv {R} (method : B -> B * (string + R)) self self' r :
  call_backend method self = (self', Ok r) ->
  exists b b', _backend self = Some b /\ method b = (b', inr r) /\
               self' = set_backend (Some b') self.
Proof.
  unfold call_backend. destruct (_backend self) as [b|] eqn:Hb; [|done].
  destruct (method b) as [b' [msg|r']] eqn:Hm; [done|]. simpl.
  intros E. injection E as <- <-. by exists b, b'.
Qed.

Lemma call_backend_not_exists {R} (method : B -> B * (string + R)) self :
  (call_backend method self).2 <> Raise FileExistsError.
Proof.
  unfold call_backend. destruct (_backend self) as [b|]; [|done].
  by destruct (method b) as [b' [msg|r']].
Qed.

Lemma save_exists d (self : BaseModel B) fs :
  is_Some (fs_lookup fs d) ->
  save pickle_dumps d (self, fs) = ((self, fs), Raise FileExistsError).
Proof.
  intros Hd. unfold save, on_fs, zoom, mbind, M_bind, bind, path_exists. simpl.
  by rewrite bool_decide_eq_true_2.
Qed.

Lemma save_Ok_inv d (self self' : BaseModel B) fs fs' :
  save pickle_dumps d (self, fs) = ((self', fs'), Ok tt) ->
  fs_lookup fs d = None /\ fs_lookup fs (parent d) = Some Dir /\
  exists b b' checkpoint data,
    _backend self = Some b /\ keras_save b = (b', inr checkpoint) /\
    pickle_dumps (_params self) = Some data /\
    self' = set_backend (Some b') self /\
    fs' = <[joinpath d PARAMS_FILENAME := File data]>
            (<[joinpath d BACKEND_FILENAME := File checkpoint]>
               (<[d := Dir]> fs)).
Proof.
  unfold save. intros H.
  apply bind_Ok_inv in H as ([s1 fs1] & e & H1 & H).
  rewrite on_fs_run in H1. simpl in H1. injection H1 as <- <- <-.
  case_bool_decide as Hd; [by apply bind_Ok_inv in H as (? & ? & ? & _)|].
  apply bind_Ok_inv in H as ([s2 fs2] & [] & H2 & H).
  rewrite on_fs_run in H2.
  destruct (mkdir d fs) as [fs2' r2] eqn:Hmk. simpl in H2.
  injection H2 as <- <- ->.
  apply mkdir_Ok_inv in Hmk as (Hnone & Hpar & ->).
  apply bind_Ok_inv in H as ([s3 fs3] & checkpoint & H3 & H).
  rewrite on_self_run in H3.
  destruct (call_backend keras_save self) as [s3' r3] eqn:Hcall. simpl in H3.
  injection H3 as <- <- ->.
  apply call_backend_Ok_inv in Hcall as (b & b' & Hb & Hsave & ->).
  apply bind_Ok_inv in H as ([s4 fs4] & [] & H4 & H).
  rewrite on_fs_run in H4.
  destruct (write_file _ checkpoint _) as [fs4' r4] eqn:Hw1. simpl in H4.
  injection H4 as <- <- ->.
  apply write_file_Ok_inv in Hw1 as ->.
  apply bind_Ok_inv in H as ([s5 fs5] & [] & H5 & H).
  rewrite on_fs_run in H5.
  destruct (write_file _ [] _) as [fs5' r5] eqn:Hw2. simpl in H5.
  injection H5 as <- <- ->.
  apply write_file_Ok_inv in Hw2 as ->.
  apply bind_Ok_inv in H as ([s6 fs6] & data & H6 & H).
  rewrite on_self_run in H6. simpl in H6. unfold pickle_dump in H6.
  destruct (pickle_dumps (_params self)) as [data'|] eqn:Hp; [|done].
  injection H6 as <- <- <-.
  rewrite on_fs_run in H.
  destruct (write_file _ data' _) as [fs6' r6] eqn:Hw3. simpl in H.
  injection H as <- <- ->.
  apply write_file_Ok_inv in Hw3 as ->.
  rewrite insert_insert_eq.
  repeat split; [done..|]. by exists b, b', checkpoint, data'.
Qed.

End Save.

(** ** [save] *)

Lemma write_file_other (p : path) (data : bytes) (fs : FS) (q : path) :
  q <> p -> (write_file p data fs).1 !! q = fs !! q.
Proof.
  intros Hq. unfold write_file, check_parent, put_node, mbind, M_bind, bind.
  destruct (fs_lookup fs p) as [[|?]|]; simpl; try done.
  - by rewrite lookup_insert_ne.
  - destruct (fs_lookup fs (parent p)) as [[|?]|]; simpl; try done.
    by rewrite lookup_insert_ne.
Qed.

Section SaveClaims.

Context {B ndarray History Scores : Type}.
Context `{!KerasModel B ndarray History Scores}.
Variable pickle_dumps : ModelParams -> option bytes.

Lemma wp_on_fs {A} (m : M FS A) (Q : BaseModel B * FS -> result A -> Prop) self fs :
  wp m (fun fs' r => Q (self, fs') r) fs -> wp (on_fs m) Q (self, fs).
Proof. unfold wp. by rewrite on_fs_run. Qed.

Lemma wp_on_self {A} (m : M (BaseModel B) A)
    (Q : BaseModel B * FS -> result A -> Prop) self fs :
  wp m (fun self' r => Q (self', fs) r) self -> wp (on_self m) Q (self, fs).
Proof. unfold wp. by rewrite on_self_run. Qed.

Lemma wp_write_in_dir (d : path) (name : string) (data : bytes)
    (k : M (BaseModel B * FS) unit) (fs0 : FS) (self : BaseModel B) (fs : FS) :
  fs !! d = Some Dir ->
  (forall fs' : FS, fs' !! d = Some Dir -> wp k (save_post d fs0) (self, fs')) ->
  wp (on_fs (write_file (joinpath d name) data);; k) (save_post d fs0) (self, fs).
Proof.
  intros Hd Hk. apply wp_bind, wp_on_fs. unfold wp at 1.
  pose proof (write_file_other (joinpath d name) data fs d) as Ho.
  pose proof (write_file_not_exists (joinpath d name) data fs) as Hne.
  destruct (write_file (joinpath d name) data fs) as [fs' [[]|e]]; simpl in *.
  - apply Hk. rewrite Ho; [done|]. intros E. symmetry in E. by apply joinpath_ne in E.
  - split; [done|]. intros _. simpl. rewrite Ho; [done|].
    intros E. symmetry in E. by apply joinpath_ne in E.
Qed.

Lemma save_fresh d (self : BaseModel B) fs :
  fs_lookup fs d = None ->
  wp (save pickle_dumps d) (save_post d fs) (self, fs).
Proof.
  intros Hnone. unfold save.
  apply wp_bind, wp_on_fs. unfold wp at 1, path_exists. simpl.
  rewrite bool_decide_eq_false_2 by (rewrite Hnone; by intros [? ?]).
  apply wp_bind, wp_on_fs. unfold wp at 1.
  pose proof (mkdir_not_exists d fs Hnone) as Hne.
  destruct (mkdir d fs) as [fs1 [[]|e]] eqn:Hmk; simpl in *;
    [|split; [done|]].
  2: { unfold mkdir, check_parent, mbind, M_bind, bind in Hmk.
       rewrite Hnone in Hmk. intros Hpar. rewrite Hpar in Hmk. done. }
  apply mkdir_Ok_inv in Hmk as (_ & Hpar & ->).
  assert (<[d := Dir]> fs !! d = Some Dir) as Hdir by apply lookup_insert_eq.
  revert Hdir. generalize (<[d := Dir]> fs). intros fs1 Hdir.
  apply wp_bind, wp_on_self. unfold wp at 1.
  pose proof (call_backend_not_exists keras_save self) as Hcb.
  destruct (call_backend keras_save self) as [self1 [checkpoint|e]]; simpl in *.
  2: { split; [|done]. intros [= ->]. by apply Hcb. }
  apply wp_write_in_dir; [done|]. intros fs2 Hdir2.
  apply wp_write_in_dir; [done|]. intros fs3 Hdir3.
  apply wp_bind, wp_on_self. unfold wp at 1. simpl.
  unfold pickle_dump. destruct (pickle_dumps (_params self1)) as [data|]; [|by split].
  apply wp_on_fs. unfold wp.
  pose proof (write_file_other (joinpath d PARAMS_FILENAME) data fs3 d) as Ho.
  pose proof (write_file_not_exists (joinpath d PARAMS_FILENAME) data fs3) as Hw.
  destruct (write_file _ data fs3) as [fs4 r4]; simpl in *.
  split; [done|]. intros _. simpl. rewrite Ho; [done|].
  intros E. symmetry in E. by apply joinpath_ne in E.
Qed.

(** C2, amended: [save(dirpath)] raises [FileExistsError] if and only if
    something exists at [dirpath].  When it does, nothing is written: the
    file system and the model, params and backend, are as before.  When
    [save] returns, the directory did not exist before and exists
    afterwards; and on a free path whose parent directory exists the
    directory is created however the rest of [save] ends, also when a later
    step raises. *)
Theorem save_FileExistsError (d : path) (self : BaseModel B) (fs : FS) :
  ((save pickle_dumps d (self, fs)).2 = Raise FileExistsError <->
   is_Some (fs_lookup fs d)) /\
  (is_Some (fs_lookup fs d) -> (save pickle_dumps d (self, fs)).1 = (self, fs)) /\
  (forall self' fs', save pickle_dumps d (self, fs) = ((self', fs'), Ok tt) ->
     fs_lookup fs d = None /\ fs' !! d = Some Dir) /\
  (fs_lookup fs d = None -> fs_lookup fs (parent d) = Some Dir ->
     (save pickle_dumps d (self, fs)).1.2 !! d = Some Dir).
Proof.
  split; [split|split; [|split]].
  - intros Hr. destruct (fs_lookup fs d) as [n|] eqn:Hd; [by eexists|].
    by destruct (save_fresh d self fs Hd) as [Hne _].
  - intros Hd. by rewrite save_exists.
  - intros Hd. by rewrite save_exists.
  - intros self' fs' Hsave.
    apply save_Ok_inv in Hsave
      as (Hnone & _ & b & b' & cp & data & _ & _ & _ & _ & ->).
    split; [done|].
    rewrite !lookup_insert_ne by apply joinpath_ne. apply lookup_insert_eq.
  - intros Hd Hpar. destruct (save_fresh d self fs Hd) as [_ Hdir]. auto.
Qed.

(** C3: a successful [save(dirpath)] writes exactly two files into the
    directory it created: [backend.h5], the checkpoint the backend's own save
    produced, and [params.pkl], the pickle of the model's params.  Nothing
    else lies in the directory and nothing outside it changed. *)
Theorem save_writes_two_files (d : path) (self self' : BaseModel B) (fs fs' : FS) :
  fs_wf fs ->
  save pickle_dumps d (self, fs) = ((self', fs'), Ok tt) ->
  exists b b' checkpoint data,
    _backend self = Some b /\ keras_save b = (b', inr checkpoint) /\
    pickle_dumps (_params self) = Some data /\
    fs !! d = None /\ fs' !! d = Some Dir /\
    (forall name : string,
       fs' !! joinpath d name =
         if bool_decide (name = "backend.h5") then Some (File checkpoint)
         else if bool_decide (name = "params.pkl") then Some (File data)
         else None) /\
    (forall q : path,
       q <> d -> (forall name, q <> joinpath d name) -> fs' !! q = fs !! q).
Proof.
  intros Hwf Hsave.
  apply save_Ok_inv in Hsave
    as (Hnone & Hpar & b & b' & cp & data & Hb & Hsave & Hp & -> & ->).
  exists b, b', cp, data. repeat split; try done.
  - by apply fs_lookup_None in Hnone as [? _].
  - rewrite !lookup_insert_ne by apply joinpath_ne. apply lookup_insert_eq.
  - intros name. unfold PARAMS_FILENAME, BACKEND_FILENAME.
    repeat case_bool_decide; subst.
    + rewrite lookup_insert_ne; [apply lookup_insert_eq|].
      intros E. by apply joinpath_inj in E.
    + apply lookup_insert_eq.
    + rewrite !lookup_insert_ne.
      * by apply fs_wf_no_child.
      * intros E. symmetry in E. by apply joinpath_ne in E.
      * intros E. by apply joinpath_inj in E.
      * intros E. by apply joinpath_inj in E.
  - intros q Hq Hname. by rewrite !lookup_insert_ne.
Qed.

End SaveClaims.

(** ** The constructor and [load_model] *)

Section LoadClaims.

Context {B ndarray History Scores : Type}.
Context `{!KerasModel B ndarray History Scores}.
Variable class_env : string -> class_def.
Variable pickle_dumps : ModelParams -> option bytes.
Variable pickle_loads : bytes -> option ModelParams.

Lemma truthy_lookup (p : ModelParams) k v :
  p !! k = Some v -> truthy (Some p) = true.
Proof.
  intros Hk. simpl. rewrite bool_decide_eq_false_2; [done|].
  intros ->. by rewrite lookup_empty in Hk.
Qed.

Lemma read_file_File (fs : FS) (d : path) (name : string) data :
  fs !! joinpath d name = Some (File data) ->
  read_file (joinpath d name) fs = (fs, Ok data).
Proof. intros E. unfold read_file. by rewrite fs_lookup_joinpath, E. Qed.

(** What [load_model] does once both files are read and decoded. *)
Lemma load_model_run (d : path) (fs : FS) checkpoint (backend : B) data params :
  fs !! joinpath d BACKEND_FILENAME = Some (File checkpoint) ->
  keras_load_model checkpoint = inr backend ->
  fs !! joinpath d PARAMS_FILENAME = Some (File data) ->
  pickle_loads data = Some params ->
  load_model class_env pickle_loads d fs =
    (fs, match params !! "model_class" with
         | Some model_class => call class_env model_class (Some params) (Some backend)
         | None => Raise (KeyError "model_class")
         end).
Proof.
  intros Hb Hk Hp Hl. unfold load_model.
  rewrite (bind_Ok _ _ _ _ _ (read_file_File _ _ _ _ Hb)).
  unfold lift_result at 1. erewrite bind_Ok; [|by rewrite Hk].
  rewrite (bind_Ok _ _ _ _ _ (read_file_File _ _ _ _ Hp)).
  unfold pickle_load. rewrite Hl.
  unfold lift_result, mbind, M_bind, bind, getitem.
  by destruct (params !! "model_class").
Qed.

(** C8: the constructor tests [params] for truth, not for [None].  A
    [params] argument that is false, the empty table as much as [None], is
    dropped for [get_default_params()] of the class; a table with at least
    one entry is stored as given. *)
Theorem init_params_truthiness (cls : string) (params : option ModelParams)
    (backend : option B) :
  (truthy params = false ->
   _params (__init__ class_env cls params backend) = cls_get_default_params class_env cls) /\
  (forall p, params = Some p -> p <> ∅ ->
   _params (__init__ class_env cls params backend) = p) /\
  truthy (Some ∅) = false /\
  _params (__init__ class_env cls (Some ∅) backend) = cls_get_default_params class_env cls /\
  _backend (__init__ class_env cls params backend) = backend.
Proof.
  repeat split.
  - intros Hf. unfold __init__. simpl. destruct params as [p|]; [|done].
    by rewrite Hf.
  - intros p -> Hp. unfold __init__. simpl.
    by rewrite bool_decide_eq_false_2.
Qed.

(** C10: [load_model] calls what the loaded params hold under
    ['model_class'] with the loaded params and the loaded backend.  The
    model it returns is of exactly that class and carries those params and
    that backend; without the key it raises [KeyError], and with a value that
    is not a class ([None], for a model saved before the class was set or
    guessed) it raises [TypeError]. *)
Theorem load_model_dispatch (d : path) (fs : FS) checkpoint (backend : B) data params :
  fs !! joinpath d BACKEND_FILENAME = Some (File checkpoint) ->
  keras_load_model checkpoint = inr backend ->
  fs !! joinpath d PARAMS_FILENAME = Some (File data) ->
  pickle_loads data = Some params ->
  (forall cls, params !! "model_class" = Some (VClass cls) ->
     load_model class_env pickle_loads d fs =
       (fs, new_model class_env cls (Some params) (Some backend))) /\
  (forall m, (load_model class_env pickle_loads d fs).2 = Ok m ->
     exists cls, params !! "model_class" = Some (VClass cls) /\
                 cls_abstract (class_env cls) = false /\
                 m = Model cls params (Some backend)) /\
  (params !! "model_class" = None ->
     (load_model class_env pickle_loads d fs).2 = Raise (KeyError "model_class")) /\
  (forall v, params !! "model_class" = Some v -> (forall cls, v <> VClass cls) ->
     (load_model class_env pickle_loads d fs).2 = Raise TypeError).
Proof.
  intros Hb Hk Hp Hl.
  rewrite (load_model_run d fs checkpoint backend data params) by done.
  repeat split.
  - intros cls ->. done.
  - intros m. simpl. destruct (params !! "model_class") as [v|] eqn:Hv; [|done].
    destruct v; try done. simpl. unfold new_model.
    destruct (cls_abstract (class_env name)) eqn:Ha; [done|].
    intros [= <-]. exists name. repeat split; [done|].
    unfold __init__. by rewrite (truthy_lookup params _ _ Hv).
  - by intros ->.
  - intros v -> Hv. simpl. destruct v; try done. by destruct (Hv name).
Qed.

(** C1, amended: a model whose params are picklable and record an
    instantiable class under ['model_class'], saved with its backend to a
    path that did not exist, is loaded back by [load_model], provided the
    checkpoint deserializes, as a model of the recorded class whose params
    equal the saved params and whose backend is the deserialization of the
    saved checkpoint. *)
Theorem save_load_model_roundtrip (d : path) (self self' : BaseModel B)
    (fs fs' : FS) (b b' backend' : B) checkpoint cls :
  picklable pickle_dumps pickle_loads (_params self) ->
  _backend self = Some b ->
  fs_lookup fs d = None ->
  save pickle_dumps d (self, fs) = ((self', fs'), Ok tt) ->
  keras_save b = (b', inr checkpoint) ->
  keras_load_model checkpoint = inr backend' ->
  _params self !! "model_class" = Some (VClass cls) ->
  cls_abstract (class_env cls) = false ->
  load_model class_env pickle_loads d fs' =
    (fs', Ok (Model cls (_params self) (Some backend'))).
Proof.
  intros (data & Hdump & Hload) Hb Hnone Hsave Hks Hkl Hcls Habs.
  apply save_Ok_inv in Hsave
    as (_ & _ & b0 & b0' & cp & data' & Hb0 & Hks0 & Hp & -> & ->).
  rewrite Hb in Hb0. injection Hb0 as <-.
  rewrite Hks in Hks0. injection Hks0 as <- <-.
  rewrite Hdump in Hp. injection Hp as <-.
  rewrite (load_model_run d _ checkpoint backend' data (_params self)); try done.
  - rewrite Hcls. simpl. unfold new_model. rewrite Habs. unfold __init__.
    by rewrite (truthy_lookup _ _ _ Hcls).
  - rewrite lookup_insert_ne; [apply lookup_insert_eq|].
    intros E. by apply joinpath_inj in E.
  - apply lookup_insert_eq.
Qed.

End LoadClaims.

(** ** The serializer of the concrete setting *)

Module DemoFacts.
Import Demo.

(** Induction on values, with the items of tuples and lists. *)
Lemma value_rect_items (P : value -> Prop) :
  P VNone -> (forall b, P (VBool b)) -> (forall z, P (VInt z)) ->
  (forall s, P (VStr s)) ->
  (forall items, Forall P items -> P (VTuple items)) ->
  (forall items, Forall P items -> P (VList items)) ->
  (forall name, P (VClass name)) -> (forall t, P (VTask t)) ->
  forall v, P v.
Proof.
  intros HNone HBool HInt HStr HTuple HList HClass HTask.
  fix IH 1. intros [|b|z|s|items|items|name|t].
  - exact HNone.
  - apply HBool.
  - apply HInt.
  - apply HStr.
  - apply HTuple. induction items as [|v items IHitems]; constructor;
      [apply IH | exact IHitems].
  - apply HList. induction items as [|v items IHitems]; constructor;
      [apply IH | exact IHitems].
  - apply HClass.
  - apply HTask.
Qed.

Lemma tree_to_strings names :
  mapM tree_to_string (map leafS names) = Some names.
Proof. by apply mapM_fmap_Some. Qed.

Lemma tree_to_task_to_tree t :
  tree_to_value (task_to_tree t) = Some (VTask t).
Proof.
  destruct t as [n a ls ms]. unfold task_to_tree. simpl.
  rewrite !tree_to_strings. simpl. by destruct a.
Qed.

Lemma tree_to_value_to_tree v : tree_to_value (value_to_tree v) = Some v.
Proof.
  induction v as [|b|z|s|items IH|items IH|name|t] using value_rect_items;
    try done.
  - by destruct b.
  - simpl. change (map value_to_tree items) with (value_to_tree <$> items).
    by rewrite (mapM_fmap_Forall_Some _ value_to_tree items IH).
  - simpl. change (map value_to_tree items) with (value_to_tree <$> items).
    by rewrite (mapM_fmap_Forall_Some _ value_to_tree items IH).
  - apply tree_to_task_to_tree.
Qed.

Lemma bytes_to_positive_to_bytes n :
  bytes_to_positive (positive_to_bytes n) = Some n.
Proof. induction n as [n IH|n IH|]; simpl; by rewrite ?IH. Qed.

Lemma loads_dumps (p : ModelParams) :
  exists data, dumps p = Some data /\ loads data = Some p.
Proof.
  eexists. split; [done|]. unfold loads.
  rewrite bytes_to_positive_to_bytes. simpl. rewrite decode_encode. simpl.
  rewrite (mapM_fmap_Some _ entry_to_tree).
  - simpl. by rewrite list_to_map_to_list.
  - intros [k v]. unfold entry_of_tree, entry_to_tree. simpl.
    by rewrite tree_to_value_to_tree.
Qed.

End DemoFacts.

(** ** Forwarding to the backend *)

Section Forwarding.

Context {B ndarray History Scores : Type}.
Context `{!KerasModel B ndarray History Scores}.

Lemma call_backend_forwarded {R} (method : B -> B * (string + R)) self b :
  _backend self = Some b ->
  call_backend method self = forwarded self (method b).
Proof. unfold call_backend, forwarded. intros ->. by destruct (method b). Qed.

Lemma on_params_getitem (self : BaseModel B) k v :
  _params self !! k = Some v -> on_params (getitem k) self = (self, Ok v).
Proof.
  intros Hk. unfold on_params, zoom, getitem. rewrite Hk. by destruct self.
Qed.

(** What a forwarded call leaves and answers, written out. *)
Lemma call_backend_run {R} (method : B -> B * (string + R)) (self : BaseModel B) b :
  _backend self = Some b ->
  call_backend method self =
    (Model (__class__ self) (_params self) (Some (method b).1),
     match (method b).2 with
     | inr r => Ok r
     | inl msg => Raise (BackendError msg)
     end).
Proof.
  unfold call_backend, set_backend, from_backend. intros ->.
  by destruct (method b) as [b' [msg|r]].
Qed.

(** C4: with a backend set, [fit], [evaluate] and [predict] are one call of
    the backend's method of the same name with the same arguments,
    [batch_size] defaulting to 128 and [epochs] to 1: what the backend
    returns is returned, what it raises is raised, the backend is as the
    call left it, and the class and the params of the model are untouched.
    [compile] is, in the same way, one call of the backend's [compile] with
    the params ['optimizer'], ['loss'] and ['metrics']. *)
Theorem methods_forward_to_backend (self : BaseModel B) (b : B) :
  _backend self = Some b ->
  (forall x y batch_size epochs,
     let bs := match batch_size with Some n => n | None => 128 end in
     let ep := match epochs with Some n => n | None => 1 end in
     fit x y batch_size epochs self =
       (Model (__class__ self) (_params self) (Some (keras_fit x y bs ep b).1),
        match (keras_fit x y bs ep b).2 with
        | inr history => Ok history
        | inl msg => Raise (BackendError msg)
        end)) /\
  (forall x y batch_size,
     let bs := match batch_size with Some n => n | None => 128 end in
     evaluate x y batch_size self =
       (Model (__class__ self) (_params self) (Some (keras_evaluate x y bs b).1),
        match (keras_evaluate x y bs b).2 with
        | inr scores => Ok scores
        | inl msg => Raise (BackendError msg)
        end)) /\
  (forall x batch_size,
     let bs := match batch_size with Some n => n | None => 128 end in
     predict x batch_size self =
       (Model (__class__ self) (_params self) (Some (keras_predict x bs b).1),
        match (keras_predict x bs b).2 with
        | inr predictions => Ok predictions
        | inl msg => Raise (BackendError msg)
        end)) /\
  (forall optimizer loss metrics,
     _params self !! "optimizer" = Some optimizer ->
     _params self !! "loss" = Some loss ->
     _params self !! "metrics" = Some metrics ->
     compile self =
       (Model (__class__ self) (_params self)
          (Some (keras_compile optimizer loss metrics b).1),
        match (keras_compile optimizer loss metrics b).2 with
        | inr _ => Ok tt
        | inl msg => Raise (BackendError msg)
        end)).
Proof.
  intros Hb. split; [|split; [|split]].
  - intros x y [bs|] [ep|]; by apply call_backend_run.
  - intros x y [bs|]; by apply call_backend_run.
  - intros x [bs|]; by apply call_backend_run.
  - intros optimizer loss metrics Ho Hl Hm. unfold compile.
    erewrite bind_Ok; [|by unfold backend_attr; rewrite Hb].
    rewrite (bind_Ok _ _ _ _ _ (on_params_getitem self _ _ Ho)).
    rewrite (bind_Ok _ _ _ _ _ (on_params_getitem self _ _ Hl)).
    rewrite (bind_Ok _ _ _ _ _ (on_params_getitem self _ _ Hm)).
    rewrite (call_backend_run _ _ _ Hb).
    by destruct (keras_compile optimizer loss metrics b).2 as [msg|[]].
Qed.

End Forwarding.

(** ** The claims on the concrete setting *)

Import Demo.

(** Membership in a list that is written out. *)
Ltac in_list :=
  repeat first [apply list_elem_of_here | apply list_elem_of_further].

Ltac not_in_list :=
  let Hin := fresh "Hin" in
  intros Hin;
  repeat (apply elem_of_cons in Hin as [Hin|Hin]; [discriminate Hin|]);
  by apply elem_of_nil in Hin.

Lemma run_eq {S A} (m : M S A) (s : S) (r : result A) :
  (m s).2 = r -> m s = ((m s).1, r).
Proof. intros <-. by destruct (m s). Qed.

Lemma save_naive_filled :
  save dumps saved (naive_filled, ∅) =
    ((after_save_filled.1, after_save_filled.2), Ok tt).
Proof.
  rewrite (run_eq (save dumps saved) (naive_filled, ∅) (Ok tt)).
  - unfold after_save_filled. by destruct (save _ _ _).1.
  - vm_compute. reflexivity.
Qed.

Lemma save_naive :
  save dumps saved (naive, ∅) =
    ((after_save_unfilled.1, after_save_unfilled.2), Ok tt).
Proof.
  rewrite (run_eq (save dumps saved) (naive, ∅) (Ok tt)).
  - unfold after_save_unfilled. by destruct (save _ _ _).1.
  - vm_compute. reflexivity.
Qed.

(** C1, as stated, fails: the params of [naive] are picklable, its backend
    is set, the path is free, [save] succeeds and the checkpoint it wrote
    deserializes, yet [load_model] raises [TypeError] and returns no model,
    because ['model_class'] is [None]. *)
Lemma save_load_model_unset_class :
  picklable dumps loads (_params naive) /\
  _backend naive = Some [] /\
  fs_lookup ∅ saved = None /\
  (save dumps saved (naive, ∅)).2 = Ok tt /\
  (save dumps saved (naive, ∅)).1.2 !! joinpath saved "backend.h5" =
    Some (File [x89]) /\
  keras_load_model [x89] = inr [Loaded [x89]] /\
  _params naive !! "model_class" = Some VNone /\
  (load_model classes loads saved (save dumps saved (naive, ∅)).1.2).2 =
    Raise TypeError /\
  ~ exists m,
      (load_model classes loads saved (save dumps saved (naive, ∅)).1.2).2 = Ok m.
Proof.
  assert ((load_model classes loads saved (save dumps saved (naive, ∅)).1.2).2 =
          Raise TypeError) as Hload by (vm_compute; reflexivity).
  split; [apply DemoFacts.loads_dumps|].
  do 6 (split; [vm_compute; reflexivity|]).
  split; [exact Hload|].
  rewrite Hload. intros [m Hm]. discriminate Hm.
Qed.

Lemma save_load_model_roundtrip_witness :
  load_model classes loads saved after_save_filled.2 =
    (after_save_filled.2,
     Ok (Model "NaiveModel" (_params naive_filled) (Some [Loaded [x89]]))).
Proof.
  apply (save_load_model_roundtrip classes dumps loads saved naive_filled
           after_save_filled.1 ∅ after_save_filled.2
           [] [Saved] [Loaded [x89]] [x89] "NaiveModel").
  - apply DemoFacts.loads_dumps.
  - vm_compute. reflexivity.
  - vm_compute. reflexivity.
  - apply save_naive_filled.
  - vm_compute. reflexivity.
  - vm_compute. reflexivity.
  - vm_compute. reflexivity.
  - vm_compute. reflexivity.
Defined.

(** C2, as stated, fails, whether its failing case is the [FileExistsError]
    or any exception.  On a free path whose parent directory is missing
    [save] does not raise [FileExistsError], and no directory is created.  On
    a free path, for a model without backend, [save] fails and yet has
    written: the directory is there. *)
Lemma save_free_path_no_directory :
  fs_lookup ∅ ["models"; "saved_model"] = None /\
  (save dumps ["models"; "saved_model"] (naive_filled, ∅)).2 =
    Raise FileNotFoundError /\
  (save dumps ["models"; "saved_model"] (naive_filled, ∅)).1.2
    !! ["models"; "saved_model"] = None /\
  fs_lookup ∅ saved = None /\
  (save dumps saved (__init__ classes "NaiveModel" None None, ∅)).2 =
    Raise AttributeError /\
  (save dumps saved (__init__ classes "NaiveModel" None None, ∅)).1.2 !! saved =
    Some Dir.
Proof. repeat split; vm_compute; reflexivity. Qed.

Lemma save_FileExistsError_witness :
  (save dumps saved (naive_filled, <[saved := Dir]> ∅)).2 = Raise FileExistsError /\
  (save dumps saved (naive_filled, <[saved := Dir]> ∅)).1 =
    (naive_filled, <[saved := Dir]> ∅) /\
  after_save_filled.2 !! saved = Some Dir.
Proof.
  destruct (save_FileExistsError dumps saved naive_filled (<[saved := Dir]> ∅))
    as (Hiff & Hsame & _ & _).
  destruct (save_FileExistsError dumps saved naive_filled ∅)
    as (_ & _ & Hok & _).
  assert (is_Some (fs_lookup (<[saved := Dir]> ∅) saved)) as Hex.
  { exists Dir. vm_compute. reflexivity. }
  split; [by apply Hiff|]. split; [by apply Hsame|].
  by destruct (Hok _ _ save_naive_filled) as [_ Hdir].
Defined.

Lemma save_writes_two_files_witness :
  exists b b' checkpoint data,
    _backend naive_filled = Some b /\ keras_save b = (b', inr checkpoint) /\
    dumps (_params naive_filled) = Some data /\
    (∅ : FS) !! saved = None /\ after_save_filled.2 !! saved = Some Dir /\
    (forall name : string,
       after_save_filled.2 !! joinpath saved name =
         if bool_decide (name = "backend.h5") then Some (File checkpoint)
         else if bool_decide (name = "params.pkl") then Some (File data)
         else None) /\
    (forall q : path,
       q <> saved -> (forall name, q <> joinpath saved name) ->
       after_save_filled.2 !! q = (∅ : FS) !! q).
Proof.
  apply (save_writes_two_files dumps saved naive_filled after_save_filled.1).
  - apply map_Forall_empty.
  - apply save_naive_filled.
Defined.

Lemma methods_forward_to_backend_witness :
  fit [1; 2] [0] None None naive_filled =
    (Model (__class__ naive_filled) (_params naive_filled)
       (Some [Fitted [1; 2] [0] 128 1]),
     Ok [128; 1]) /\
  evaluate [1; 2] [0] (Some 64) naive_filled =
    (Model (__class__ naive_filled) (_params naive_filled)
       (Some [Evaluated [1; 2] [0] 64]),
     Ok 64) /\
  predict [1; 2] (Some 32) naive_filled =
    (Model (__class__ naive_filled) (_params naive_filled)
       (Some [Predicted [1; 2] 32]),
     Ok [32; 1; 2]) /\
  compile naive_filled =
    (Model (__class__ naive_filled) (_params naive_filled)
       (Some [Compiled (VStr "adam") (VStr "categorical_crossentropy")
                (VList [VStr "acc"])]),
     Ok tt).
Proof.
  destruct (methods_forward_to_backend naive_filled [])
    as (Hfit & Hevaluate & Hpredict & Hcompile).
  { vm_compute. reflexivity. }
  split; [exact (Hfit [1; 2] [0] None None)|].
  split; [exact (Hevaluate [1; 2] [0] (Some 64))|].
  split; [exact (Hpredict [1; 2] (Some 32))|].
  apply (Hcompile (VStr "adam") (VStr "categorical_crossentropy") (VList [VStr "acc"]));
    vm_compute; reflexivity.
Defined.

Lemma guess_and_fill_missing_params_defaults_witness :
  exists v, _params naive_filled !! "loss" = Some v /\ v <> VNone /\
            (_params naive !! "loss" = Some VNone ->
             default_of tasks "NaiveModel" (_params naive_filled) "loss" v).
Proof.
  apply (guess_and_fill_missing_params_defaults tasks naive naive_filled "loss").
  - apply (run_eq (guess_and_fill_missing_params tasks) naive (Ok tt)).
    vm_compute. reflexivity.
  - unfold standard_params. in_list.
Defined.

Lemma guess_and_fill_missing_params_only_fills_witness :
  _params (guess_and_fill_missing_params tasks tuned).1 !! "optimizer" =
    Some (VStr "sgd") /\
  _params (guess_and_fill_missing_params tasks tuned).1 !! "my_param" =
    Some (VStr "param") /\
  _params (guess_and_fill_missing_params tasks tuned).1 !! "unknown" = None.
Proof.
  destruct (guess_and_fill_missing_params_only_fills tasks tuned)
    as (Hkeep & Hother & _).
  split; [|split].
  - apply Hkeep; [vm_compute; reflexivity | discriminate].
  - apply Hkeep; [vm_compute; reflexivity | discriminate].
  - rewrite Hother; [vm_compute; reflexivity|].
    unfold standard_params. not_in_list.
Defined.

Lemma guess_and_fill_missing_params_idempotent_witness :
  guess_and_fill_missing_params tasks naive_filled = (naive_filled, Ok tt).
Proof.
  unfold naive_filled.
  rewrite (guess_and_fill_missing_params_idempotent tasks naive).
  apply (run_eq (guess_and_fill_missing_params tasks) naive (Ok tt)).
  vm_compute. reflexivity.
Defined.

(** The doctest of [all_params_filled]. *)
Example all_params_filled_doctest :
  all_params_filled naive = false /\ all_params_filled naive_filled = true.
Proof. split; vm_compute; reflexivity. Qed.

Lemma init_params_truthiness_witness :
  _params (__init__ classes "MyModel" (Some ∅) (@None (list call_record)))
    !! "num_eggs" = Some (VInt 512) /\
  _params (__init__ classes "MyModel" (Some (<["name" := VStr "m"]> ∅))
             (@None (list call_record))) = <["name" := VStr "m"]> ∅.
Proof.
  destruct (init_params_truthiness classes "MyModel" (Some ∅) (@None (list call_record)))
    as (Hfalsy & _).
  destruct (init_params_truthiness classes "MyModel"
              (Some (<["name" := VStr "m"]> ∅)) (@None (list call_record)))
    as (_ & Htruthy & _).
  split.
  - rewrite Hfalsy by (vm_compute; reflexivity). vm_compute. reflexivity.
  - apply Htruthy; [reflexivity|]. apply insert_non_empty.
Defined.

Lemma load_model_dispatch_witness :
  exists data,
    dumps (_params naive) = Some data /\
    (load_model classes loads saved
       (<[joinpath saved "params.pkl" := File data]>
          (<[joinpath saved "backend.h5" := File [x89]]> ∅))).2 = Raise TypeError.
Proof.
  destruct (DemoFacts.loads_dumps (_params naive)) as (data & Hd & Hl).
  exists data. split; [exact Hd|].
  destruct (load_model_dispatch classes loads saved
              (<[joinpath saved "params.pkl" := File data]>
                 (<[joinpath saved "backend.h5" := File [x89]]> ∅))
              [x89] [Loaded [x89]] data (_params naive))
    as (_ & _ & _ & Hnone).
  - rewrite lookup_insert_ne; [apply lookup_insert_eq|].
    intros E. apply joinpath_inj in E. discriminate E.
  - reflexivity.
  - apply lookup_insert_eq.
  - exact Hl.
  - apply (Hnone VNone); [vm_compute; reflexivity|]. intros cls. discriminate.
Defined.

(** * Further properties of the code *)

(** ** The file system primitives keep the file system well formed *)

Lemma parent_ne (p : path) : p <> [] -> parent p <> p.
Proof.
  intros Hp E. apply (f_equal length) in E. unfold parent in E.
  destruct (exists_last Hp) as (q & x & ->).
  rewrite removelast_last, length_app in E. simpl in E. lia.
Qed.




(** ** [save], however it ends *)

Lemma mkdir_other (d : path) (fs : FS) (q : path) :
  q <> d -> (mkdir d fs).1 !! q = fs !! q.
Proof.
  intros Hq. unfold mkdir, check_parent, put_node, mbind, M_bind, bind.
  destruct (fs_lookup fs d); [done|].
  destruct (fs_lookup fs (parent d)) as [[|?]|]; simpl; try done.
  by rewrite lookup_insert_ne.
Qed.

Lemma fs_wf_parent_no_dir (fs : FS) (d : path) :
  fs_wf fs -> fs_lookup fs (parent d) <> Some Dir -> fs_lookup fs d = None.
Proof.
  intros Hwf Hpar. destruct d as [|x d]; [by destruct Hpar|]. simpl.
  destruct (fs !! (x :: d)) as [n|] eqn:E; [|done].
  apply Hwf in E. by destruct Hpar.
Qed.

Lemma absent_error_file (fs : FS) (p : path) (n : nat) (data : bytes) :
  (n < length p)%nat -> fs_lookup fs (take n p) = Some (File data) ->
  absent_error fs p = NotADirectoryError.
Proof.
  intros Hn Hf. unfold absent_error.
  assert (existsb (is_file fs) (ancestors p) = true) as ->; [|done].
  apply existsb_exists. exists (take n p). split.
  - unfold ancestors. apply in_map_iff. exists n. split; [done|].
    apply in_seq. lia.
  - unfold is_file. by rewrite Hf.
Qed.

Lemma absent_error_no_file (fs : FS) (p : path) :
  (forall (n : nat) (data : bytes), fs_lookup fs (take n p) <> Some (File data)) ->
  absent_error fs p = FileNotFoundError.
Proof.
  intros Hno. unfold absent_error.
  destruct (existsb (is_file fs) (ancestors p)) eqn:E; [|done].
  apply existsb_exists in E as (q & Hq & Hf).
  unfold ancestors in Hq. apply in_map_iff in Hq as (n & <- & _).
  unfold is_file in Hf.
  destruct (fs_lookup fs (take n p)) as [[|data]|] eqn:El; try done.
  by destruct (Hno n data).
Qed.

Lemma existsb_ext_in {A : Type} (f g : A -> bool) (l : list A) :
  (forall x, In x l -> f x = g x) -> existsb f l = existsb g l.
Proof.
  induction l as [|a l IH]; [done|]. intros Hfg. simpl.
  rewrite (Hfg a) by (by left). rewrite IH; [done|].
  intros x Hx. apply Hfg. by right.
Qed.

Lemma absent_error_ext (fs1 fs2 : FS) (p : path) :
  (forall n : nat, (n < length p)%nat ->
     fs_lookup fs1 (take n p) = fs_lookup fs2 (take n p)) ->
  absent_error fs1 p = absent_error fs2 p.
Proof.
  intros Hsame. unfold absent_error.
  rewrite (existsb_ext_in (is_file fs1) (is_file fs2)); [done|].
  intros q Hq. unfold ancestors in Hq. apply in_map_iff in Hq as (n & <- & Hn).
  apply in_seq in Hn. unfold is_file. rewrite Hsame; [done|lia].
Qed.

Lemma joinpath_ne_sym (d : path) (name : string) : d <> joinpath d name.
Proof. intros E. symmetry in E. by apply joinpath_ne in E. Qed.

Section SaveOutcomes.

Context {B ndarray History Scores : Type}.
Context `{!KerasModel B ndarray History Scores}.
Variable pickle_dumps : ModelParams -> option bytes.

(** Whatever [mkdir] on [dirpath], the two writes under [dirpath] and the
    backend's save keep, [save] keeps, however it ends. *)
Lemma save_invariant (I : FS -> Prop) (J : BaseModel B -> Prop)
    (d : path) (self : BaseModel B) (fs : FS) :
  (forall fs : FS, I fs -> I (mkdir d fs).1) ->
  (forall (name : string) (data : bytes) (fs : FS),
     name = BACKEND_FILENAME \/ name = PARAMS_FILENAME ->
     I fs -> I (write_file (joinpath d name) data fs).1) ->
  (forall self : BaseModel B, J self -> J (call_backend keras_save self).1) ->
  I fs -> J self ->
  wp (save pickle_dumps d) (fun s' _ => J s'.1 /\ I s'.2) (self, fs).
Proof.
  intros Hmk Hwr Hcb HI HJ. unfold save.
  apply wp_bind, wp_on_fs. unfold wp at 1, path_exists. simpl.
  apply wp_bind. destruct (bool_decide _); [done|].
  apply wp_on_fs. unfold wp at 1.
  specialize (Hmk fs HI).
  destruct (mkdir d fs) as [fs1 [[]|e]]; simpl in *; [|done].
  apply wp_bind, wp_on_self. unfold wp at 1.
  specialize (Hcb self HJ).
  destruct (call_backend keras_save self) as [self1 [checkpoint|e]];
    simpl in *; [|done].
  apply wp_bind, wp_on_fs. unfold wp at 1.
  pose proof (Hwr BACKEND_FILENAME checkpoint fs1 (or_introl eq_refl) Hmk) as H2.
  destruct (write_file _ checkpoint fs1) as [fs2 [[]|e]]; simpl in *; [|done].
  apply wp_bind, wp_on_fs. unfold wp at 1.
  pose proof (Hwr PARAMS_FILENAME [] fs2 (or_intror eq_refl) H2) as H3.
  destruct (write_file _ [] fs2) as [fs3 [[]|e]]; simpl in *; [|done].
  apply wp_bind, wp_on_self. unfold wp at 1. simpl.
  destruct (pickle_dump pickle_dumps (_params self1)) as [data|e]; [|done].
  apply wp_on_fs. unfold wp.
  pose proof (Hwr PARAMS_FILENAME data fs3 (or_intror eq_refl) H3) as H4.
  by destruct (write_file _ data fs3) as [fs4 r4].
Qed.

Lemma call_backend_keeps {R} (method : B -> B * (string + R)) (self : BaseModel B) :
  __class__ (call_backend method self).1 = __class__ self /\
  _params (call_backend method self).1 = _params self.
Proof.
  unfold call_backend. destruct (_backend self) as [b|]; [|done].
  by destruct (method b).
Qed.

(** X1: a saved model is never overwritten.  After a successful
    [save(dirpath)], every further [save] to the same path, of whatever
    model, raises [FileExistsError] and changes nothing. *)
Theorem save_never_overwrites (d : path) (self self' other : BaseModel B)
    (fs fs' : FS) :
  save pickle_dumps d (self, fs) = ((self', fs'), Ok tt) ->
  save pickle_dumps d (other, fs') = ((other, fs'), Raise FileExistsError).
Proof.
  intros Hsave.
  apply save_Ok_inv in Hsave
    as (Hnone & _ & b & b' & cp & data & _ & _ & _ & _ & ->).
  apply save_exists. exists Dir.
  apply fs_lookup_None in Hnone as [_ Hd]. rewrite fs_lookup_ne_nil by done.
  rewrite !lookup_insert_ne by apply joinpath_ne. apply lookup_insert_eq.
Qed.

(** X2: [save] does not create missing parent directories.  When what
    lies above [dirpath] is not an existing directory, [save] raises and
    leaves the model and the file system as they were.  It raises
    [NotADirectoryError] where a regular file stands on the way to
    [dirpath], and [FileNotFoundError] where none does. *)
Theorem save_missing_parent (d : path) (self : BaseModel B) (fs : FS) :
  fs_wf fs ->
  fs_lookup fs (parent d) <> Some Dir ->
  (save pickle_dumps d (self, fs)).1 = (self, fs) /\
  ((forall (n : nat) (data : bytes), fs_lookup fs (take n d) <> Some (File data)) ->
   (save pickle_dumps d (self, fs)).2 = Raise FileNotFoundError) /\
  (forall (n : nat) (data : bytes),
     fs_lookup fs (take n d) = Some (File data) ->
     (save pickle_dumps d (self, fs)).2 = Raise NotADirectoryError).
Proof.
  intros Hwf Hpar. pose proof (fs_wf_parent_no_dir fs d Hwf Hpar) as Hd.
  assert (exists e, mkdir d fs = (fs, Raise e) /\
            ((forall (n : nat) (data : bytes),
                fs_lookup fs (take n d) <> Some (File data)) ->
             e = FileNotFoundError) /\
            (forall (n : nat) (data : bytes),
               fs_lookup fs (take n d) = Some (File data) ->
               e = NotADirectoryError)) as (e & Hmk & Hnone & Hfile).
  { unfold mkdir, check_parent, mbind, M_bind, bind. rewrite Hd.
    destruct (fs_lookup fs (parent d)) as [[|above]|] eqn:E; [done| |].
    - exists NotADirectoryError. split; [done|]. split; [|done].
      intros Hno. destruct (Hno (pred (length d)) above).
      by rewrite <- removelast_firstn_len.
    - exists (absent_error fs d). split; [done|]. split.
      + apply absent_error_no_file.
      + intros n data Hf. apply (absent_error_file fs d n data); [|done].
        destruct (decide (n < length d)%nat) as [Hn|Hn]; [done|].
        rewrite take_ge in Hf by lia. congruence. }
  assert (save pickle_dumps d (self, fs) = ((self, fs), Raise e)) as ->.
  { unfold save.
    erewrite bind_Ok; [|rewrite on_fs_run; reflexivity]. simpl.
    rewrite bool_decide_eq_false_2 by (rewrite Hd; by intros [? ?]).
    erewrite bind_Raise; [reflexivity|].
    rewrite on_fs_run. by rewrite Hmk. }
  simpl. split; [done|]. split.
  - intros Hno. by rewrite Hnone.
  - intros n data Hf. by rewrite (Hfile n data).
Qed.

(** X3: [save] is not atomic.  On a model without backend and a free path
    under an existing directory, [save] raises [AttributeError] after it
    made the directory: the empty directory stays behind, and saving to the
    same path again raises [FileExistsError]. *)
Theorem save_without_backend (d : path) (self : BaseModel B) (fs : FS) :
  _backend self = None ->
  fs_lookup fs d = None ->
  fs_lookup fs (parent d) = Some Dir ->
  save pickle_dumps d (self, fs) = ((self, <[d := Dir]> fs), Raise AttributeError) /\
  save pickle_dumps d (self, <[d := Dir]> fs) =
    ((self, <[d := Dir]> fs), Raise FileExistsError).
Proof.
  intros Hb Hd Hpar. split.
  - unfold save.
    erewrite bind_Ok; [|rewrite on_fs_run; reflexivity]. simpl.
    rewrite bool_decide_eq_false_2 by (rewrite Hd; by intros [? ?]).
    erewrite bind_Ok.
    2: { rewrite on_fs_run. unfold mkdir, check_parent, put_node, mbind, M_bind, bind.
         rewrite Hd, Hpar. reflexivity. }
    erewrite bind_Raise; [reflexivity|].
    rewrite on_self_run. unfold call_backend. by rewrite Hb.
  - apply save_exists. exists Dir.
    apply fs_lookup_None in Hd as [_ Hd]. rewrite fs_lookup_ne_nil by done.
    apply lookup_insert_eq.
Qed.

(** X4: parameters that cannot be pickled are found out last.  With a
    backend that saves, on a free path under an existing directory, [save]
    raises only after the directory and [backend.h5] are written and
    [params.pkl] is opened: the directory, the checkpoint and a parameter
    file stay behind, and the model holds the backend as its [save] left
    it. *)
Theorem save_unpicklable (d : path) (self : BaseModel B) (fs : FS)
    (b b' : B) (checkpoint : bytes) :
  fs_wf fs ->
  fs_lookup fs d = None ->
  fs_lookup fs (parent d) = Some Dir ->
  _backend self = Some b ->
  keras_save b = (b', inr checkpoint) ->
  pickle_dumps (_params self) = None ->
  let out := save pickle_dumps d (self, fs) in
  (exists e, out.2 = Raise e) /\
  _backend out.1.1 = Some b' /\
  out.1.2 !! d = Some Dir /\
  out.1.2 !! joinpath d BACKEND_FILENAME = Some (File checkpoint) /\
  (exists written, out.1.2 !! joinpath d PARAMS_FILENAME = Some (File written)).
Proof.
  intros Hwf Hd Hpar Hb Hks Hp.
  assert (forall (name : string) (data : bytes) (fs1 : FS),
            fs1 !! d = Some Dir -> fs1 !! joinpath d name <> Some Dir ->
            write_file (joinpath d name) data fs1 =
              (<[joinpath d name := File data]> fs1, Ok tt)) as Hwrite.
  { intros name data fs1 Hdir Hfree.
    unfold write_file, check_parent, put_node, mbind, M_bind, bind.
    rewrite fs_lookup_joinpath, parent_joinpath.
    apply fs_lookup_None in Hd as [_ Hne]. rewrite (fs_lookup_ne_nil _ d Hne), Hdir.
    by destruct (fs1 !! joinpath d name) as [[|?]|]. }
  pose proof (fs_wf_no_child fs d BACKEND_FILENAME Hwf Hd) as Hnb.
  pose proof (fs_wf_no_child fs d PARAMS_FILENAME Hwf Hd) as Hnp.
  assert (save pickle_dumps d (self, fs) =
            ((set_backend (Some b') self,
              <[joinpath d PARAMS_FILENAME := File []]>
                (<[joinpath d BACKEND_FILENAME := File checkpoint]> (<[d := Dir]> fs))),
             Raise PicklingError)) as ->.
  { unfold save.
    erewrite bind_Ok; [|rewrite on_fs_run; reflexivity]. cbn [fst snd path_exists].
    rewrite bool_decide_eq_false_2 by (rewrite Hd; by intros [? ?]).
    erewrite bind_Ok.
    2: { rewrite on_fs_run. unfold mkdir, check_parent, put_node, mbind, M_bind, bind.
         rewrite Hd, Hpar. reflexivity. }
    cbn [fst snd].
    erewrite bind_Ok.
    2: { rewrite on_self_run. unfold call_backend. rewrite Hb, Hks. reflexivity. }
    cbn [fst snd from_backend].
    erewrite bind_Ok.
    2: { rewrite on_fs_run, Hwrite; [reflexivity|apply lookup_insert_eq|].
         rewrite lookup_insert_ne by apply joinpath_ne_sym. by rewrite Hnb. }
    cbn [fst snd].
    erewrite bind_Ok.
    2: { rewrite on_fs_run, Hwrite; [reflexivity| |].
         - rewrite lookup_insert_ne by apply joinpath_ne. apply lookup_insert_eq.
         - rewrite lookup_insert_ne by (intros E; by apply joinpath_inj in E).
           rewrite lookup_insert_ne by apply joinpath_ne_sym. by rewrite Hnp. }
    cbn [fst snd].
    erewrite bind_Raise; [reflexivity|].
    rewrite on_self_run. cbn [fst snd _params set_backend]. unfold pickle_dump.
    by rewrite Hp. }
  cbn [fst snd]. split; [by eexists|]. split; [done|]. split; [|split].
  - rewrite !lookup_insert_ne by apply joinpath_ne. apply lookup_insert_eq.
  - rewrite lookup_insert_ne by (intros E; by apply joinpath_inj in E).
    apply lookup_insert_eq.
  - eexists. apply lookup_insert_eq.
Qed.

(** X5: [save] touches nothing but its own directory.  However it ends,
    every path other than [dirpath], [dirpath/backend.h5] and
    [dirpath/params.pkl] holds what it held, and the class and the params of
    the model are the same. *)
Theorem save_frame (d : path) (self : BaseModel B) (fs : FS) :
  let s' := (save pickle_dumps d (self, fs)).1 in
  (forall q : path,
     q <> d -> q <> joinpath d BACKEND_FILENAME -> q <> joinpath d PARAMS_FILENAME ->
     s'.2 !! q = fs !! q) /\
  __class__ s'.1 = __class__ self /\
  _params s'.1 = _params self.
Proof.
  pose proof (save_invariant
    (fun fs' : FS => forall q : path,
       q <> d -> q <> joinpath d BACKEND_FILENAME ->
       q <> joinpath d PARAMS_FILENAME -> fs' !! q = fs !! q)
    (fun self' => __class__ self' = __class__ self /\ _params self' = _params self)
    d self fs) as H.
  unfold wp in H. simpl. destruct H as [[Hc Hp] Hfs]; try done.
  - intros fs1 H1 q Hq Hb Hp. rewrite mkdir_other by done. auto.
  - intros name data fs1 [->| ->] H1 q Hq Hb Hp;
      rewrite write_file_other by done; auto.
  - intros self1 [Hc Hp]. destruct (call_backend_keeps keras_save self1) as [-> ->].
    done.
Qed.


End SaveOutcomes.

(** ** [load_model] and the file system *)

Section LoadOutcomes.

Context {B ndarray History Scores : Type}.
Context `{!KerasModel B ndarray History Scores}.
Variable class_env : string -> class_def.
Variable pickle_dumps : ModelParams -> option bytes.
Variable pickle_loads : bytes -> option ModelParams.

(** [load_model] in terms of what the two paths hold. *)
Lemma load_model_cases (d : path) (fs : FS) :
  load_model class_env pickle_loads d fs =
    (fs,
     match fs !! joinpath d BACKEND_FILENAME with
     | Some (File checkpoint) =>
         match keras_load_model checkpoint with
         | inr backend =>
             match fs !! joinpath d PARAMS_FILENAME with
             | Some (File data) =>
                 match pickle_loads data with
                 | Some params =>
                     match params !! "model_class" with
                     | Some model_class =>
                         call class_env model_class (Some params) (Some backend)
                     | None => Raise (KeyError "model_class")
                     end
                 | None => Raise UnpicklingError
                 end
             | Some Dir => Raise IsADirectoryError
             | None => Raise (absent_error fs (joinpath d PARAMS_FILENAME))
             end
         | inl msg => Raise (BackendError msg)
         end
     | Some Dir => Raise IsADirectoryError
     | None => Raise (absent_error fs (joinpath d BACKEND_FILENAME))
     end).
Proof.
  unfold load_model, mbind, M_bind, bind, read_file, lift_result, pickle_load,
    getitem.
  rewrite !fs_lookup_joinpath.
  destruct (fs !! joinpath d BACKEND_FILENAME) as [[|checkpoint]|]; try done.
  destruct (keras_load_model checkpoint) as [msg|backend]; try done. simpl.
  rewrite fs_lookup_joinpath.
  destruct (fs !! joinpath d PARAMS_FILENAME) as [[|data]|]; try done.
  destruct (pickle_loads data) as [params|]; try done.
  by destruct (params !! "model_class").
Qed.

Lemma absent_error_joinpath (fs1 fs2 : FS) (d : path) (name : string) :
  (forall n : nat, fs_lookup fs1 (take n d) = fs_lookup fs2 (take n d)) ->
  absent_error fs1 (joinpath d name) = absent_error fs2 (joinpath d name).
Proof.
  intros Hsame. apply absent_error_ext. intros n Hn.
  unfold joinpath in *. rewrite length_app in Hn. simpl in Hn.
  rewrite take_app_le by lia. apply Hsame.
Qed.

(** X7: [load_model] reads [backend.h5] and [params.pkl] under [dirpath]
    and writes nothing.  On two file systems that hold the same at these two
    paths it returns a model on one exactly when it returns that model on
    the other; where the two also hold the same at [dirpath] and at every
    path above it, it ends the same way on both, down to the exception.
    Each file system is left as it was. *)
Theorem load_model_two_files (d : path) (fs1 fs2 : FS) :
  fs1 !! joinpath d BACKEND_FILENAME = fs2 !! joinpath d BACKEND_FILENAME ->
  fs1 !! joinpath d PARAMS_FILENAME = fs2 !! joinpath d PARAMS_FILENAME ->
  (forall m, (load_model class_env pickle_loads d fs1).2 = Ok m <->
             (load_model class_env pickle_loads d fs2).2 = Ok m) /\
  ((forall n : nat, fs_lookup fs1 (take n d) = fs_lookup fs2 (take n d)) ->
   (load_model class_env pickle_loads d fs1).2 =
   (load_model class_env pickle_loads d fs2).2) /\
  (load_model class_env pickle_loads d fs1).1 = fs1 /\
  (load_model class_env pickle_loads d fs2).1 = fs2.
Proof.
  intros Hb Hp. rewrite !load_model_cases. cbn [fst snd]. rewrite <- Hb, <- Hp.
  split; [|split; [|done]].
  - intros m.
    destruct (fs1 !! joinpath d BACKEND_FILENAME) as [[|checkpoint]|]; [done| |done].
    destruct (keras_load_model checkpoint) as [msg|backend]; [done|].
    by destruct (fs1 !! joinpath d PARAMS_FILENAME) as [[|data]|].
  - intros Hsame.
    by rewrite !(absent_error_joinpath fs1 fs2 d _ Hsame).
Qed.

(** X8: [load_model] needs both files.  Where [backend.h5] or [params.pkl]
    is missing under [dirpath], as under every path nothing was saved to, it
    raises and returns no model. *)
Theorem load_model_missing_file (d : path) (fs : FS) :
  fs !! joinpath d BACKEND_FILENAME = None \/
  fs !! joinpath d PARAMS_FILENAME = None ->
  exists e, load_model class_env pickle_loads d fs = (fs, Raise e).
Proof.
  intros Hmiss. rewrite load_model_cases.
  destruct (fs !! joinpath d BACKEND_FILENAME) as [[|checkpoint]|]; eauto.
  destruct (keras_load_model checkpoint) as [msg|backend]; eauto.
  destruct Hmiss as [Hb|Hp]; [done|]. rewrite Hp. eauto.
Qed.

End LoadOutcomes.

(** ** [guess_and_fill_missing_params], further *)

Lemma fill_params_same_keys_from tasks cls (p0 p : ModelParams) :
  dom p = dom p0 ->
  wp (fill_params tasks cls) (fun p' _ => dom p' = dom p0) p.
Proof.
  unfold fill_params. revert p.
  assert (forall (p : ModelParams) k x,
            dom p = dom p0 -> p !! k = Some VNone ->
            dom (<[k := x]> p) = dom p0) as Hins.
  { intros p k x Hp Hk. rewrite <- Hp. apply dom_insert_lookup_L. by eexists. }
  repeat (intros p H0;
    eapply (wp_fill_step (fun p => dom p = dom p0) (fun p => dom p = dom p0));
      [by eauto..| |];
    [ clear dependent p; intros p Hp Hk; run_body; eauto
    | clear dependent p ]).
  intros p H0.
  eapply (wp_fill_last (fun p => dom p = dom p0)); eauto.
  intros p' Hp Hk; run_body. eauto.
Qed.

Lemma guess_and_fill_only_fills {B} tasks (self : BaseModel B) :
  only_fills (_params self) (_params (guess_and_fill_missing_params tasks self).1).
Proof.
  rewrite guess_and_fill_run. cbn [fst _params set_params].
  apply (fill_params_only_fills_from tasks (__class__ self)
           (_params self) (_params self) (only_fills_refl _)).
Qed.

Lemma all_params_filled_spec {B} (self : BaseModel B) :
  all_params_filled self = true <->
  forall k v, _params self !! k = Some v -> v <> VNone.
Proof.
  unfold all_params_filled. rewrite forallb_forall. split.
  - intros H k v Hk. apply elem_of_map_to_list in Hk.
    apply list_elem_of_In in Hk. apply H in Hk. simpl in Hk.
    apply negb_true_iff, is_None_false in Hk. done.
  - intros H [k v] Hin. apply list_elem_of_In, elem_of_map_to_list in Hin.
    simpl. apply negb_true_iff, is_None_false. by apply (H k v).
Qed.

(** X9: [guess_and_fill_missing_params] neither adds nor removes a
    parameter: however it ends, the params have the keys they had. *)
Theorem guess_and_fill_missing_params_same_keys {B} tasks (self : BaseModel B) :
  dom (_params (guess_and_fill_missing_params tasks self).1) = dom (_params self).
Proof.
  rewrite guess_and_fill_run. cbn [fst _params set_params].
  by apply (fill_params_same_keys_from tasks (__class__ self)
              (_params self) (_params self)).
Qed.

(** X10: after [guess_and_fill_missing_params] returned, [all_params_filled]
    answers [True] exactly when every parameter outside the seven standard
    ones held a value other than [None] before the call. *)
Theorem all_params_filled_after_guess {B} tasks (self self' : BaseModel B) :
  guess_and_fill_missing_params tasks self = (self', Ok tt) ->
  (all_params_filled self' = true <->
   forall k v, k ∉ standard_params -> _params self !! k = Some v -> v <> VNone).
Proof.
  intros Hrun. rewrite all_params_filled_spec.
  pose proof (guess_and_fill_only_fills tasks self) as Hof.
  rewrite Hrun in Hof. cbn [fst] in Hof.
  split.
  - intros H k v Hk Hv. apply (H k). destruct (Hof k) as [->|[Hin _]]; done.
  - intros H k v Hv. destruct (decide (k ∈ standard_params)) as [Hin|Hout].
    + destruct (guess_and_fill_good tasks self self' k Hrun Hin)
        as (v' & Hv' & Hne & _). congruence.
    + apply (H k v Hout). destruct (Hof k) as [<-|[Hin _]]; done.
Qed.

(** X11: a model on which every standard parameter is set is left alone:
    [guess_and_fill_missing_params] returns without a change, whatever tasks
    are available, none included. *)
Theorem guess_and_fill_missing_params_nothing_missing {B} tasks (self : BaseModel B) :
  (forall k, k ∈ standard_params -> is_set k (_params self)) ->
  guess_and_fill_missing_params tasks self = (self, Ok tt).
Proof.
  intros Hset. rewrite guess_and_fill_run.
  rewrite fill_params_filled by (by apply Forall_forall).
  by destruct self.
Qed.

(** X12: a task given by the user is the one that counts.  When ['task'] is
    set, [guess_and_fill_missing_params] never consults
    [engine.list_available_tasks]: it ends the same way for every list of
    available tasks. *)
Theorem guess_and_fill_missing_params_user_task {B} tasks tasks' (self : BaseModel B) :
  is_set "task" (_params self) ->
  guess_and_fill_missing_params tasks self =
  guess_and_fill_missing_params tasks' self.
Proof.
  intros Htask. rewrite !guess_and_fill_run.
  assert (fill_params tasks (__class__ self) (_params self) =
          fill_params tasks' (__class__ self) (_params self)) as ->; [|done].
  generalize (_params self) Htask. generalize (__class__ self).
  clear. intros cls p Htask. unfold fill_params.
  assert (forall k x (q : ModelParams), k <> "task" -> is_set "task" q ->
            is_set "task" (<[k := x]> q)) as Hkeep.
  { intros k x q Hk (v & Hv & Hne). exists v. by rewrite lookup_insert_ne. }
  rewrite 2!(fill_step_eq "name").
  destruct (p !! "name") as [v0|]; [|done].
  destruct (is_None v0); rewrite ?bind_setitem;
    rewrite 2!(fill_step_eq "model_class");
    (match goal with
     | |- context [?q !! "model_class"] => destruct (q !! "model_class") as [v1|]
     end; [|done]);
    destruct (is_None v1); rewrite ?bind_setitem;
    rewrite !(fill_step_skip "task") by auto; done.
Qed.

Lemma fill_task_raises tasks e (rest : M ModelParams unit) (q : ModelParams) :
  default_task tasks = Raise e ->
  q !! "task" = Some VNone ->
  (v ← getitem "task";
   when (is_None v) (t ← lift_result (default_task tasks); setitem "task" t);;
   rest) q = (q, Raise e).
Proof.
  intros He Hq. rewrite fill_step_eq, Hq. simpl. by rewrite He.
Qed.

(** X13: when ['task'] is unset and [engine.list_available_tasks()[1]()]
    raises, an [IndexError] with fewer than two tasks available,
    [guess_and_fill_missing_params] raises the same exception half-way: name
    and model_class are filled by then, every other parameter is as it
    was. *)
Theorem guess_and_fill_missing_params_no_task {B} tasks e (self : BaseModel B) :
  default_task tasks = Raise e ->
  is_Some (_params self !! "name") ->
  is_Some (_params self !! "model_class") ->
  _params self !! "task" = Some VNone ->
  let r := guess_and_fill_missing_params tasks self in
  r.2 = Raise e /\
  (tasks !! 1%nat = None -> e = IndexError) /\
  is_set "name" (_params r.1) /\
  is_set "model_class" (_params r.1) /\
  (forall k, k <> "name" -> k <> "model_class" ->
             _params r.1 !! k = _params self !! k).
Proof.
  intros He [vn Hn] [vc Hc] Ht. cbv zeta. rewrite guess_and_fill_run.
  cbn [fst snd _params set_params].
  split; [|split].
  2: { intros H1. unfold default_task in He. rewrite H1 in He. congruence. }
  all: revert Hn Hc Ht; generalize (_params self) (__class__ self);
    intros p cls Hn Hc Ht; unfold fill_params;
    rewrite (fill_step_eq "name"), Hn;
    destruct (is_None vn) eqn:En; rewrite ?bind_setitem;
    rewrite (fill_step_eq "model_class"), ?lookup_insert_ne, Hc by done;
    destruct (is_None vc) eqn:Ec; rewrite ?bind_setitem;
    (rewrite (fill_task_raises tasks e);
       [|done|by rewrite ?lookup_insert_ne by done]);
    cbn [fst snd]; try done.
  all: apply is_None_true in En || apply is_None_false in En.
  all: apply is_None_true in Ec || apply is_None_false in Ec.
  all: split; [|split].
  all: try (intros k Hk1 Hk2; by rewrite ?lookup_insert_ne by done).
  all: try (eexists; split;
            [rewrite ?lookup_insert_ne by done; first [apply lookup_insert_eq | eassumption]
            |done]).
Qed.

Section Workflow.

Context {B ndarray History Scores : Type}.
Context `{!KerasModel B ndarray History Scores}.
Variable class_env : string -> class_def.
Variable pickle_dumps : ModelParams -> option bytes.
Variable pickle_loads : bytes -> option ModelParams.

(** X14: fill, save, load.  A model whose class was not set by hand, once
    [guess_and_fill_missing_params] returned and [save] succeeded, is loaded
    back by [load_model], provided its params are picklable and the
    checkpoint deserializes, as a model of its own class with the filled
    params. *)
Theorem guess_save_load (tasks : list task_class) (d : path)
    (self filled stored : BaseModel B) (fs fs' : FS)
    (b b' backend' : B) (checkpoint : bytes) :
  cls_abstract (class_env (__class__ self)) = false ->
  _params self !! "model_class" = Some VNone ->
  guess_and_fill_missing_params tasks self = (filled, Ok tt) ->
  picklable pickle_dumps pickle_loads (_params filled) ->
  save pickle_dumps d (filled, fs) = ((stored, fs'), Ok tt) ->
  _backend filled = Some b ->
  keras_save b = (b', inr checkpoint) ->
  keras_load_model checkpoint = inr backend' ->
  load_model class_env pickle_loads d fs' =
    (fs', Ok (Model (__class__ self) (_params filled) (Some backend'))).
Proof.
  intros Habs Hunset Hfill (data & Hdump & Hload) Hsave Hb Hks Hkl.
  assert (_params filled !! "model_class" = Some (VClass (__class__ self))) as Hcls.
  { destruct (guess_and_fill_good tasks self filled "model_class" Hfill)
      as (v & Hv & _ & Hdef); [unfold standard_params; set_solver|].
    specialize (Hdef Hunset). by inversion Hdef; subst. }
  apply save_Ok_inv in Hsave
    as (_ & _ & b0 & b0' & cp & data' & Hb0 & Hks0 & Hp & -> & ->).
  rewrite Hb in Hb0. injection Hb0 as <-.
  rewrite Hks in Hks0. injection Hks0 as <- <-.
  rewrite Hdump in Hp. injection Hp as <-.
  rewrite (load_model_run class_env pickle_loads d _ checkpoint backend' data
             (_params filled)); try done.
  - rewrite Hcls. simpl. unfold new_model. rewrite Habs. unfold __init__.
    by rewrite (truthy_lookup _ _ _ Hcls).
  - rewrite lookup_insert_ne; [apply lookup_insert_eq|].
    intros E. by apply joinpath_inj in E.
  - apply lookup_insert_eq.
Qed.

(** X15: fill, then compile.  After [guess_and_fill_missing_params]
    returned, [compile] finds its three params: it raises no [KeyError] and
    calls the backend's [compile] with an optimizer, a loss and metrics that
    are not [None], ['adam'] where the optimizer was unset. *)
Theorem compile_after_guess (tasks : list task_class)
    (self filled : BaseModel B) (b : B) :
  guess_and_fill_missing_params tasks self = (filled, Ok tt) ->
  _backend self = Some b ->
  exists optimizer loss metrics,
    optimizer <> VNone /\ loss <> VNone /\ metrics <> VNone /\
    (_params self !! "optimizer" = Some VNone -> optimizer = VStr "adam") /\
    compile filled = forwarded filled (keras_compile optimizer loss metrics b).
Proof.
  intros Hfill Hb.
  assert (_backend filled = Some b) as Hb'.
  { rewrite guess_and_fill_run in Hfill. injection Hfill as <- _. done. }
  destruct (guess_and_fill_good tasks self filled "optimizer" Hfill)
    as (o & Ho & Hon & Hod); [unfold standard_params; set_solver|].
  destruct (guess_and_fill_good tasks self filled "loss" Hfill)
    as (l & Hl & Hln & _); [unfold standard_params; set_solver|].
  destruct (guess_and_fill_good tasks self filled "metrics" Hfill)
    as (m & Hm & Hmn & _); [unfold standard_params; set_solver|].
  exists o, l, m. repeat split; try done.
  - intros Hu. specialize (Hod Hu). by inversion Hod.
  - unfold compile.
    erewrite bind_Ok; [|by unfold backend_attr; rewrite Hb'].
    rewrite (bind_Ok _ _ _ _ _ (on_params_getitem filled _ _ Ho)).
    rewrite (bind_Ok _ _ _ _ _ (on_params_getitem filled _ _ Hl)).
    rewrite (bind_Ok _ _ _ _ _ (on_params_getitem filled _ _ Hm)).
    by apply call_backend_forwarded.
Qed.

Lemma on_params_getitem_None (self : BaseModel B) k :
  _params self !! k = None ->
  on_params (getitem k) self = (self, Raise (KeyError k)).
Proof.
  intros Hk. unfold on_params, zoom, getitem. rewrite Hk. by destruct self.
Qed.

(** X16: where the backend is not reached.  Without a backend [fit],
    [evaluate], [predict] and [compile] raise [AttributeError], [compile]
    before it reads any param; with a backend, [compile] raises [KeyError]
    for the first of ['optimizer'], ['loss'], ['metrics'] that the params
    lack.  In each case the model is as it was and no backend method
    ran. *)
Theorem backend_not_reached (self : BaseModel B) :
  (_backend self = None ->
   (forall x y batch_size epochs,
      fit x y batch_size epochs self = (self, Raise AttributeError)) /\
   (forall x y batch_size,
      evaluate x y batch_size self = (self, Raise AttributeError)) /\
   (forall x batch_size,
      predict x batch_size self = (self, Raise AttributeError)) /\
   compile self = (self, Raise AttributeError)) /\
  (is_Some (_backend self) ->
   (_params self !! "optimizer" = None ->
    compile self = (self, Raise (KeyError "optimizer"))) /\
   (is_Some (_params self !! "optimizer") -> _params self !! "loss" = None ->
    compile self = (self, Raise (KeyError "loss"))) /\
   (is_Some (_params self !! "optimizer") -> is_Some (_params self !! "loss") ->
    _params self !! "metrics" = None ->
    compile self = (self, Raise (KeyError "metrics")))).
Proof.
  split.
  - intros Hb. repeat split; intros;
      unfold fit, evaluate, predict, compile, call_backend; rewrite ?Hb; try done.
    erewrite bind_Raise; [done|]. unfold backend_attr. by rewrite Hb.
  - intros [b Hb].
    assert (forall k : M (BaseModel B) unit, (backend_attr;; k) self = k self) as Hattr.
    { intros k. erewrite bind_Ok; [done|]. unfold backend_attr. by rewrite Hb. }
    repeat split.
    + intros Ho. unfold compile. rewrite Hattr.
      by rewrite (bind_Raise _ _ _ _ _ (on_params_getitem_None self _ Ho)).
    + intros [o Ho] Hl. unfold compile. rewrite Hattr.
      rewrite (bind_Ok _ _ _ _ _ (on_params_getitem self _ _ Ho)).
      by rewrite (bind_Raise _ _ _ _ _ (on_params_getitem_None self _ Hl)).
    + intros [o Ho] [l Hl] Hm. unfold compile. rewrite Hattr.
      rewrite (bind_Ok _ _ _ _ _ (on_params_getitem self _ _ Ho)).
      rewrite (bind_Ok _ _ _ _ _ (on_params_getitem self _ _ Hl)).
      by rewrite (bind_Raise _ _ _ _ _ (on_params_getitem_None self _ Hm)).
Qed.

End Workflow.

(** What the helpers of the method raise is never a [KeyError]. *)
Lemma default_task_no_KeyError tasks k : default_task tasks <> Raise (KeyError k).
Proof.
  unfold default_task, new_task. destruct (tasks !! 1%nat) as [t|]; [|done].
  by destruct (tc_abstract t).
Qed.

Lemma list_available_metrics_no_KeyError task k :
  list_available_metrics task <> Raise (KeyError k).
Proof. by destruct task. Qed.

Lemma list_available_losses_no_KeyError task k :
  list_available_losses task <> Raise (KeyError k).
Proof. by destruct task. Qed.

Lemma subscript_no_KeyError xs i k : subscript xs i <> Raise (KeyError k).
Proof. destruct xs; simpl; try done; by destruct (_ !! _). Qed.

(** The exits of one body of the method: a [KeyError] for a key the table
    lacks, or an exception of another kind. *)
Ltac key_body Hother Hkey :=
  run_body; eauto;
  first
    [ apply Hkey; [done | unfold standard_params; set_solver | done]
    | apply Hother; [done|]; intros k' ->;
      first [ by eapply default_task_no_KeyError
            | by eapply list_available_metrics_no_KeyError
            | by eapply list_available_losses_no_KeyError
            | by eapply subscript_no_KeyError ] ].

Lemma fill_params_key_errors_from tasks cls (p0 p : ModelParams) :
  dom p = dom p0 ->
  wp (fill_params tasks cls) (key_errors p0) p.
Proof.
  unfold fill_params. revert p.
  assert (forall (p : ModelParams) k x,
            dom p = dom p0 -> p !! k = Some VNone ->
            dom (<[k := x]> p) = dom p0) as Hins.
  { intros p k x Hp Hk. rewrite <- Hp. apply dom_insert_lookup_L. by eexists. }
  assert (forall (p : ModelParams) (e : exn),
            dom p = dom p0 -> (forall k, e <> KeyError k) ->
            key_errors p0 p (Raise e)) as Hother.
  { intros p e Hp He. split; [done|]. intros k [= ->]. by destruct (He k). }
  assert (forall (p : ModelParams) k,
            dom p = dom p0 -> k ∈ standard_params -> p !! k = None ->
            key_errors p0 p (Raise (KeyError k))) as Hkey.
  { intros p k Hp Hin Hk. split; [done|]. by intros k' [= <-]. }
  repeat (intros p H0;
    eapply (wp_fill_step (fun p => dom p = dom p0) (fun p => dom p = dom p0));
      [ exact H0
      | intros q Hq Hk; apply Hkey; [done | unfold standard_params; set_solver | done]
      | by eauto
      | clear dependent p; intros p Hp Hk; key_body Hother Hkey
      | clear dependent p ]).
  intros p H0.
  eapply (wp_fill_last (fun p => dom p = dom p0)).
  - exact H0.
  - intros q Hq Hk. apply Hkey; [done | unfold standard_params; set_solver | done].
  - intros q v Hq Hk Hv. split; [done|]. by intros k.
  - intros q Hq Hk. run_body. split; [by eauto|]. by intros k.
Qed.

(** X17: a [KeyError] out of [guess_and_fill_missing_params] names a
    standard parameter that the params lack; on params that hold the seven
    standard keys the method raises no [KeyError]. *)
Theorem guess_and_fill_missing_params_KeyError {B} tasks (self : BaseModel B) k :
  (guess_and_fill_missing_params tasks self).2 = Raise (KeyError k) ->
  k ∈ standard_params /\ _params self !! k = None.
Proof.
  rewrite guess_and_fill_run. cbn [snd]. intros Hr.
  pose proof (fill_params_key_errors_from tasks (__class__ self)
                (_params self) (_params self) eq_refl) as [Hdom Hk].
  destruct (Hk k Hr) as [Hin Hnone]. split; [done|].
  apply not_elem_of_dom. rewrite <- Hdom. by apply not_elem_of_dom.
Qed.

(** ** The further properties on the concrete setting *)

Lemma guess_naive :
  guess_and_fill_missing_params tasks naive = (naive_filled, Ok tt).
Proof.
  apply (run_eq (guess_and_fill_missing_params tasks) naive (Ok tt)).
  vm_compute. reflexivity.
Qed.

Lemma naive_filled_set k : k ∈ standard_params -> is_set k (_params naive_filled).
Proof.
  intros Hk.
  destruct (guess_and_fill_good tasks naive naive_filled k guess_naive Hk)
    as (v & Hv & Hne & _).
  by exists v.
Qed.

Lemma save_never_overwrites_witness :
  save dumps saved (naive, after_save_filled.2) =
    ((naive, after_save_filled.2), Raise FileExistsError).
Proof.
  apply (save_never_overwrites dumps saved naive_filled after_save_filled.1
           naive ∅ after_save_filled.2).
  apply save_naive_filled.
Defined.

Lemma save_missing_parent_witness :
  save dumps ["models"; "saved_model"] (naive_filled, ∅) =
    ((naive_filled, ∅), Raise FileNotFoundError) /\
  save dumps ["notes.txt"; "models"; "saved_model"]
    (naive_filled, <[["notes.txt"] := File []]> ∅) =
    ((naive_filled, <[["notes.txt"] := File []]> ∅), Raise NotADirectoryError).
Proof.
  split.
  - destruct (save_missing_parent dumps ["models"; "saved_model"] naive_filled ∅)
      as (Hsame & Hnone & _).
    + apply map_Forall_empty.
    + discriminate.
    + destruct (save dumps ["models"; "saved_model"] (naive_filled, ∅)) as [s r].
      cbn [fst snd] in Hsame, Hnone. rewrite Hsame, Hnone; [done|].
      intros [|[|[|n]]] data; discriminate.
  - destruct (save_missing_parent dumps ["notes.txt"; "models"; "saved_model"]
                naive_filled (<[["notes.txt"] := File []]> ∅))
      as (Hsame & _ & Hfile).
    + apply map_Forall_insert_2; [reflexivity|apply map_Forall_empty].
    + discriminate.
    + destruct (save dumps ["notes.txt"; "models"; "saved_model"]
                  (naive_filled, <[["notes.txt"] := File []]> ∅)) as [s r].
      cbn [fst snd] in Hsame, Hfile. rewrite Hsame, (Hfile 1%nat []); [done|].
      vm_compute. reflexivity.
Defined.

Lemma save_without_backend_witness :
  save dumps saved (__init__ classes "NaiveModel" None None, ∅) =
    ((__init__ classes "NaiveModel" None None, <[saved := Dir]> ∅),
     Raise AttributeError) /\
  save dumps saved (__init__ classes "NaiveModel" None None, <[saved := Dir]> ∅) =
    ((__init__ classes "NaiveModel" None None, <[saved := Dir]> ∅),
     Raise FileExistsError).
Proof.
  apply (save_without_backend dumps saved
           (__init__ classes "NaiveModel" None (@None (list call_record))) ∅).
  - reflexivity.
  - vm_compute. reflexivity.
  - vm_compute. reflexivity.
Defined.

Lemma save_unpicklable_witness :
  (exists e, (save (fun _ => None) saved (naive_filled, ∅)).2 = Raise e) /\
  _backend (save (fun _ => None) saved (naive_filled, ∅)).1.1 = Some [Saved] /\
  (save (fun _ => None) saved (naive_filled, ∅)).1.2 !! saved = Some Dir /\
  (save (fun _ => None) saved (naive_filled, ∅)).1.2
    !! joinpath saved BACKEND_FILENAME = Some (File [x89]) /\
  (exists written,
     (save (fun _ => None) saved (naive_filled, ∅)).1.2
       !! joinpath saved PARAMS_FILENAME = Some (File written)).
Proof.
  apply (save_unpicklable (fun _ => None) saved naive_filled ∅ [] [Saved] [x89]).
  - apply map_Forall_empty.
  - vm_compute. reflexivity.
  - vm_compute. reflexivity.
  - vm_compute. reflexivity.
  - reflexivity.
  - reflexivity.
Defined.


Lemma load_model_two_files_witness :
  (forall m,
     (load_model classes loads saved after_save_filled.2).2 = Ok m <->
     (load_model classes loads saved
        (<[["elsewhere"] := Dir]> after_save_filled.2)).2 = Ok m) /\
  (load_model classes loads saved after_save_filled.2).2 =
  (load_model classes loads saved (<[["elsewhere"] := Dir]> after_save_filled.2)).2.
Proof.
  destruct (load_model_two_files classes loads saved after_save_filled.2
              (<[["elsewhere"] := Dir]> after_save_filled.2))
    as (Hiff & Hsame & _).
  - symmetry. by apply lookup_insert_ne.
  - symmetry. by apply lookup_insert_ne.
  - split; [exact Hiff|]. apply Hsame.
    intros [|[|n]]; [reflexivity| |]; symmetry; by apply lookup_insert_ne.
Defined.

Lemma load_model_missing_file_witness :
  exists e, load_model classes loads saved ∅ = (∅, Raise e).
Proof.
  apply (load_model_missing_file classes loads saved ∅).
  left. apply lookup_empty.
Defined.

Lemma all_params_filled_after_guess_witness :
  all_params_filled naive_filled = true.
Proof.
  apply (all_params_filled_after_guess tasks naive naive_filled guess_naive).
  intros k v Hk Hv. exfalso. apply Hk.
  unfold naive in Hv. cbn [_params __init__] in Hv.
  change (cls_get_default_params classes "NaiveModel") with ModelParams_new in Hv.
  rewrite ModelParams_new_lookup in Hv. by case_bool_decide.
Defined.

Lemma guess_and_fill_missing_params_nothing_missing_witness :
  guess_and_fill_missing_params [] naive_filled = (naive_filled, Ok tt).
Proof.
  apply (guess_and_fill_missing_params_nothing_missing [] naive_filled).
  apply naive_filled_set.
Defined.

Lemma guess_and_fill_missing_params_user_task_witness :
  guess_and_fill_missing_params tasks naive_filled =
  guess_and_fill_missing_params [] naive_filled.
Proof.
  apply (guess_and_fill_missing_params_user_task tasks [] naive_filled).
  apply naive_filled_set. unfold standard_params. in_list.
Defined.

Lemma guess_and_fill_missing_params_no_task_witness :
  (guess_and_fill_missing_params [] naive).2 = Raise IndexError /\
  is_set "name" (_params (guess_and_fill_missing_params [] naive).1) /\
  _params (guess_and_fill_missing_params [] naive).1 !! "optimizer" =
    _params naive !! "optimizer".
Proof.
  destruct (guess_and_fill_missing_params_no_task [] IndexError naive)
    as (Hr & _ & Hn & _ & Hk).
  - reflexivity.
  - exists VNone. vm_compute. reflexivity.
  - exists VNone. vm_compute. reflexivity.
  - vm_compute. reflexivity.
  - split; [exact Hr|]. split; [exact Hn|]. by apply Hk.
Defined.

Lemma guess_save_load_witness :
  load_model classes loads saved after_save_filled.2 =
    (after_save_filled.2,
     Ok (Model "NaiveModel" (_params naive_filled) (Some [Loaded [x89]]))).
Proof.
  apply (guess_save_load classes dumps loads tasks saved naive naive_filled
           after_save_filled.1 ∅ after_save_filled.2 [] [Saved] [Loaded [x89]] [x89]).
  - vm_compute. reflexivity.
  - vm_compute. reflexivity.
  - apply guess_naive.
  - apply DemoFacts.loads_dumps.
  - apply save_naive_filled.
  - vm_compute. reflexivity.
  - reflexivity.
  - reflexivity.
Defined.

Lemma compile_after_guess_witness :
  exists optimizer loss metrics,
    optimizer <> VNone /\ loss <> VNone /\ metrics <> VNone /\
    (_params naive !! "optimizer" = Some VNone -> optimizer = VStr "adam") /\
    compile naive_filled =
      forwarded naive_filled (keras_compile optimizer loss metrics []).
Proof.
  apply (compile_after_guess tasks naive naive_filled []).
  - apply guess_naive.
  - reflexivity.
Defined.

Lemma guess_and_fill_missing_params_KeyError_witness :
  "loss" ∈ standard_params /\
  _params (set_params (delete "loss" (_params naive)) naive) !! "loss" = None.
Proof.
  apply (guess_and_fill_missing_params_KeyError tasks
           (set_params (delete "loss" (_params naive)) naive) "loss").
  vm_compute. reflexivity.
Defined.
